(** * Restart continuity of the [Main] plugin (anjani/plugins/main.py)

    The plugin keeps two documents in the collection "SESSION": a restart
    marker under the integer identifier 5, written by [on_stop] and consumed
    by [on_start], and a session snapshot under the hex digest of the bot
    token, written by [on_stop].  This development embeds [on_start],
    [on_stop] and [send_to_log] as functions over an explicit store, with the
    calls they make recorded in a trace, and proves the properties of the
    restart protocol over them. *)

From Stdlib Require Import ZArith.
From Stdlib Require Strings.Byte.
From stdpp Require Import gmap strings pretty list fin_maps.
From stdpp Require Import sorting.

Local Open Scope Z_scope.
Local Open Scope string_scope.

(** ** Values, documents, the collection *)

(** The Python values a document of the collection holds: [None], an
    integer (unbounded), a string, a binary blob. *)
Inductive pyval :=
  | PNone
  | PInt (n : Z)
  | PStr (s : string)
  | PBytes (b : list Byte.byte).

(** A document identifier: [{"_id": 5}] is an integer, the hex digest a
    string.  The store compares identifiers with their type. *)
Inductive doc_id :=
  | IdInt (n : Z)
  | IdStr (s : string).

#[global] Instance doc_id_eq_dec : EqDecision doc_id.
Proof. solve_decision. Defined.

Definition doc_id_to_sum (k : doc_id) : Z + string :=
  match k with IdInt n => inl n | IdStr s => inr s end.

Definition doc_id_of_sum (x : Z + string) : doc_id :=
  match x with inl n => IdInt n | inr s => IdStr s end.

#[global] Instance doc_id_countable : Countable doc_id.
Proof.
  apply (inj_countable' doc_id_to_sum doc_id_of_sum).
  intros []; reflexivity.
Defined.

(** A document is its fields (the identifier is the key it is stored
    under); the collection maps identifiers to documents. *)
Abbreviation doc := (gmap string pyval).
Abbreviation store := (gmap doc_id doc).

(** [d.get(key)]: [None] for a missing key as for a stored [None]. *)
Definition py_get (d : doc) (key : string) : pyval :=
  default PNone (d !! key).

(** [v is None] *)
Definition is_none (v : pyval) : bool :=
  match v with PNone => true | _ => false end.

(** [find_one({"_id": k})] *)
Definition find_one (k : doc_id) (c : store) : option doc := c !! k.

(** [update_one({"_id": k}, {"$set": fields}, upsert=True)]: the fields
    given replace those of the same name, the document's other fields stay,
    and a missing document is created from the fields. *)
Definition update_one (k : doc_id) (fields : doc) (c : store) : store :=
  <[k := fields ∪ default ∅ (c !! k)]> c.

(** [delete_one({"_id": k})] *)
Definition delete_one (k : doc_id) (c : store) : store := delete k c.

(** ** Messages, exceptions, the calls a handler makes *)

(** What the handlers read of a [Message]: [.id] and [.chat.id]. *)
Record message := Message { msg_id : Z; msg_chat_id : Z }.

Inductive exn :=
  | MessageDeleteForbidden
  | TypeError
  | IndexError
  | RPCError (name : string).

Inductive result (A : Type) :=
  | Ok (a : A)
  | Raise (e : exn).
Arguments Ok {A} a.
Arguments Raise {A} e.

(** [client.get_messages] answers with one message or with a list. *)
Inductive fetched :=
  | One (m : message)
  | Many (l : list message).

(** The position counters of [GetState()]. *)
Record updates_state := UpdatesState { date : Z; pts : Z; qts : Z; seq : Z }.

(** The calls of a handler, in the order they are made. *)
Inductive event :=
  | EvFindOne (k : doc_id)
  | EvUpdateOne (k : doc_id) (fields : doc)
  | EvDeleteOne (k : doc_id)
  | EvFileExists
  | EvReadBytes
  | EvGetState
  | EvSendMessage (chat : Z) (text : string) (reply_to : option Z)
  | EvGetMessages (chat : pyval) (mid : pyval)
  | EvDeleteMessage (m : message)
  | EvLogStat (name : string) (value : Z)
  | EvLogInfo (text : string).

(** What surrounds one run of a handler: the configuration, the bot's user,
    the clock reading, the session file, and the answers of the transport.
    The store, the session file and the position query always answer; a
    send, a fetch and a message deletion may raise.  [LOG_CHANNEL] is [None]
    for an unset (falsy) setting and [Some c] for a setting whose [int()]
    is [c]. *)
Record env := Env {
  LOG_CHANNEL : option Z;
  BOT_TOKEN : string;
  first_name : string;
  last_name : option string;
  usec : Z;
  session_file : option (list Byte.byte);
  get_state : updates_state;
  send_message : Z → string → option Z → result (option message);
  get_messages : pyval → pyval → result fetched;
  delete_message : message → result unit;
}.

(** The plugin's mutable state: the collection ([self.db]) and
    [self.bot_name] (unset until [on_start] assigns it). *)
Record state := State { db : store; bot_name : option string }.

(** ** Handlers as state-passing computations with a trace *)

Record run (A : Type) := Run {
  outcome : result A;
  final : state;
  trace : list event;
}.
Arguments Run {A} outcome final trace.
Arguments outcome {A} r.
Arguments final {A} r.
Arguments trace {A} r.

Definition M (A : Type) : Type := state → run A.

Definition ret {A} (a : A) : M A := λ s, Run (Ok a) s [].

Definition raise {A} (e : exn) : M A := λ s, Run (Raise e) s [].

(** An exception ends the computation; what was done before it stays. *)
Definition bind {A B} (m : M A) (f : A → M B) : M B := λ s,
  match m s with
  | Run (Ok a) s1 t1 =>
      match f a s1 with
      | Run o s2 t2 => Run o s2 (t1 ++ t2)
      end
  | Run (Raise e) s1 t1 => Run (Raise e) s1 t1
  end.

Notation "x <- m ;; k" := (bind m (λ x, k))
  (at level 100, m at next level, right associativity, only parsing).
Notation "m ;;; k" := (bind m (λ _, k))
  (at level 100, right associativity, only parsing).

(** A call to the outside: it is recorded, and answers or raises. *)
Definition call {A} (ev : event) (r : result A) : M A := λ s, Run r s [ev].

(** A call on the collection. *)
Definition on_db {A} (ev : event) (f : store → A * store) : M A := λ s,
  let '(a, c) := f (db s) in
  Run (Ok a) (State c (bot_name s)) [ev].

(** [try: m except e0: pass] *)
Definition except_pass (e0 : exn → bool) (m : M unit) : M unit := λ s,
  match m s with
  | Run (Raise e) s1 t1 =>
      if e0 e then Run (Ok tt) s1 t1 else Run (Raise e) s1 t1
  | r => r
  end.

Definition is_forbidden (e : exn) : bool :=
  match e with MessageDeleteForbidden => true | _ => false end.

(** The message a fetch answer stands for: itself, or the head of the
    list (an empty list has none). *)
Definition fetched_message (f : fetched) : option message :=
  match f with
  | One m => Some m
  | Many l => head l
  end.

(** The fixed identifier of the restart marker. *)
Definition marker_id : doc_id := IdInt 5.

Section Plugin.

(** [util.time.format_duration_us] and the digest
    [sha256(token.encode()).hexdigest()] are used as given. *)
Variable format_duration_us : Z → string.
Variable sha256_hexdigest : string → string.
Variable e : env.

(** The identifier of the session snapshot. *)
Definition snapshot_id : doc_id := IdStr (sha256_hexdigest (BOT_TOKEN e)).

Definition db_find_one (k : doc_id) : M (option doc) :=
  on_db (EvFindOne k) (λ c, (find_one k c, c)).

Definition db_update_one (k : doc_id) (fields : doc) : M unit :=
  on_db (EvUpdateOne k fields) (λ c, (tt, update_one k fields c)).

Definition db_delete_one (k : doc_id) : M unit :=
  on_db (EvDeleteOne k) (λ c, (tt, delete_one k c)).

Definition set_bot_name (n : string) : M unit := λ s,
  Run (Ok tt) (State (db s) (Some n)) [].

(** [send_to_log] (lines 119-124) *)
Definition send_to_log (text : string) (reply_to : option Z)
  : M (option message) :=
  match LOG_CHANNEL e with
  | None => ret None
  | Some chat =>
      call (EvSendMessage chat text reply_to)
           (send_message e chat text reply_to)
  end.

(** [usec() - rs_time]: an integer for an integer, [TypeError] else. *)
Definition usec_minus (rs_time : pyval) : M Z :=
  match rs_time with
  | PInt t0 => ret (usec e - t0)
  | _ => raise TypeError
  end.

(** [if isinstance(status_msg, List): status_msg = status_msg[0]] *)
Definition first_if_list (f : fetched) : M message :=
  match fetched_message f with
  | Some m => ret m
  | None => raise IndexError
  end.

(** The name [on_start] assigns: first and last name joined when the
    last name is truthy. *)
Definition full_name : string :=
  match last_name e with
  | Some l => if decide (l = "") then first_name e else first_name e +:+ l
  | None => first_name e
  end.

(** [on_start] (lines 41-79).  [asyncio.gather] starts its two calls in
    the order they are given: the metric is recorded, then the status
    message fetched, and an exception of the fetch is the one raised. *)
Definition on_start : M unit :=
  set_bot_name full_name ;;;
  restart <- db_find_one marker_id ;;
  match restart with
  | Some restart =>
      let rs_time := py_get restart "time" in
      let rs_chat_id := py_get restart "status_chat_id" in
      let rs_message_id := py_get restart "status_message_id" in
      db_delete_one marker_id ;;;
      if is_none rs_chat_id || is_none rs_message_id || is_none rs_time
      then ret tt
      else
        duration <- usec_minus rs_time ;;
        let duration_str := format_duration_us duration in
        call (EvLogStat "downtime" duration) (Ok tt) ;;;
        got <- call (EvGetMessages rs_chat_id rs_message_id)
                   (get_messages e rs_chat_id rs_message_id) ;;
        status_msg <- first_if_list got ;;
        call (EvLogInfo ("Bot downtime " +:+ duration_str)) (Ok tt) ;;;
        send_to_log ("Bot downtime " +:+ duration_str +:+ ".")
                    (Some (msg_id status_msg)) ;;;
        except_pass is_forbidden
          (call (EvDeleteMessage status_msg) (delete_message e status_msg))
  | None =>
      send_to_log "Starting system..." None ;;;
      ret tt
  end.

(** The fields of the snapshot and of the marker, as [on_stop] sets them. *)
Definition snapshot_fields (bytes : list Byte.byte) (data : updates_state)
  : doc :=
  <["session" := PBytes bytes]>
    (<["date" := PInt (date data)]>
      (<["pts" := PInt (pts data)]>
        (<["qts" := PInt (qts data)]>
          (<["seq" := PInt (seq data)]> ∅)))).

Definition marker_fields (status_msg : message) (now : Z) : doc :=
  <["status_chat_id" := PInt (msg_chat_id status_msg)]>
    (<["status_message_id" := PInt (msg_id status_msg)]>
      (<["time" := PInt now]> ∅)).

(** [on_stop] (lines 81-117).  The lock is a fresh one and guards
    nothing shared, so it does not appear. *)
Definition on_stop : M unit :=
  call EvFileExists (Ok tt) ;;;
  match session_file e with
  | None => ret tt
  | Some bytes =>
      data <- call EvGetState (Ok (get_state e)) ;;
      bytes <- call EvReadBytes (Ok bytes) ;;
      db_update_one snapshot_id (snapshot_fields bytes data) ;;;
      status_msg <- send_to_log "Shutdowning system..." None ;;
      call (EvLogInfo "Preparing to shutdown...") (Ok tt) ;;;
      match status_msg with
      | None => ret tt
      | Some status_msg =>
          db_update_one marker_id (marker_fields status_msg (usec e))
      end
  end.

End Plugin.

Arguments snapshot_id sha256_hexdigest e : assert.

(** ** Reading a trace *)

Definition is_send (ev : event) : bool :=
  match ev with EvSendMessage _ _ _ => true | _ => false end.

Definition is_metric (ev : event) : bool :=
  match ev with EvLogStat _ _ => true | _ => false end.

Definition is_message_delete (ev : event) : bool :=
  match ev with EvDeleteMessage _ => true | _ => false end.

(** A write or a delete on the collection. *)
Definition is_store_change (ev : event) : bool :=
  match ev with EvUpdateOne _ _ | EvDeleteOne _ => true | _ => false end.

Definition is_write_of (k : doc_id) (ev : event) : bool :=
  match ev with EvUpdateOne k' _ => bool_decide (k' = k) | _ => false end.

(** A side effect: a change of the collection, a message posted or
    deleted, a metric recorded. *)
Definition is_side_effect (ev : event) : bool :=
  is_store_change ev || is_send ev || is_metric ev || is_message_delete ev.

(** The metrics recorded and the lines logged, in order. *)
Definition metrics (tr : list event) : list (string * Z) :=
  omap (λ ev, match ev with EvLogStat n v => Some (n, v) | _ => None end) tr.

Definition info_lines (tr : list event) : list string :=
  omap (λ ev, match ev with EvLogInfo t => Some t | _ => None end) tr.

(** The messages sent: chat, text, and the message replied to. *)
Definition sends (tr : list event) : list (Z * string * option Z) :=
  omap (λ ev, match ev with
              | EvSendMessage c t r => Some (c, t, r)
              | _ => None
              end) tr.

(** The collection after the calls of a trace. *)
Definition apply_event (ev : event) (c : store) : store :=
  match ev with
  | EvUpdateOne k fields => update_one k fields c
  | EvDeleteOne k => delete_one k c
  | _ => c
  end.

Definition replay (tr : list event) (c : store) : store :=
  foldl (λ c ev, apply_event ev c) c tr.

(** ** Names for the cases of the handlers *)

(** A marker document that lacks one of the three values [on_start]
    needs. *)
Definition incomplete (d : doc) : bool :=
  is_none (py_get d "status_chat_id")
  || is_none (py_get d "status_message_id")
  || is_none (py_get d "time").

(** The plugin state once [on_start] has set the name, and once it has
    deleted the marker. *)
Definition started (e : env) (s : state) : state :=
  State (db s) (Some (full_name e)).

Definition cleared (e : env) (s : state) : state :=
  State (delete_one marker_id (db s)) (Some (full_name e)).

(** The outcome of [try: await status_msg.delete() except
    MessageDeleteForbidden: pass]. *)
Definition delete_outcome (e : env) (m : message) : result unit :=
  match delete_message e m with
  | Raise MessageDeleteForbidden => Ok tt
  | r => r
  end.

(** The calls of [on_start] up to the fetch of the status message. *)
Definition fetch_calls (e : env) (c m : pyval) (t0 : Z) : list event :=
  [EvFindOne marker_id; EvDeleteOne marker_id;
   EvLogStat "downtime" (usec e - t0); EvGetMessages c m].

(** The calls of [on_stop] up to and with the snapshot upsert, and the
    plugin state after them. *)
Definition snapshot_calls (sha256_hexdigest : string → string) (e : env)
    (bytes : list Byte.byte) : list event :=
  [EvFileExists; EvGetState; EvReadBytes;
   EvUpdateOne (snapshot_id sha256_hexdigest e)
               (snapshot_fields bytes (get_state e))].

Definition snapshotted (sha256_hexdigest : string → string) (e : env)
    (s : state) (bytes : list Byte.byte) : state :=
  State (update_one (snapshot_id sha256_hexdigest e)
                    (snapshot_fields bytes (get_state e)) (db s))
        (bot_name s).

(** ** Inputs to run the handlers on *)

(** A formatter and a digest to run the handlers with; the theorems hold
    for every formatter and every digest. *)
Definition example_format (us : Z) : string := pretty us +:+ " us".

Definition example_digest (token : string) : string := "sha256:" +:+ token.

(** An environment whose transport gives the same answer to every send,
    to every fetch and to every delete. *)
Definition example_env (log : option Z) (file : option (list Byte.byte))
    (now : Z) (sent : result (option message)) (got : result fetched)
    (deleted : result unit) : env :=
  Env log "12345:token" "Anjani" None now file
      (UpdatesState 1700000000 10 0 3)
      (λ _ _ _, sent) (λ _ _, got) (λ _, deleted).

(** A collection that holds one document, as the marker. *)
Definition with_marker (d : doc) : state := State {[ marker_id := d ]} None.

Definition empty_state : state := State ∅ None.

(** The marker of a shutdown whose status message was message 42 of chat
    100, at time 1000000; a start that finds it at 1500000 with the log
    channel set to that chat; and the same with no log channel. *)
Definition status_message : message := Message 42 100.

Definition scenario_marker : doc := marker_fields status_message 1000000.

Definition scenario_env (log : option Z) (now : Z) : env :=
  example_env log None now (Ok (Some (Message 43 100)))
              (Ok (One status_message)) (Ok tt).

(** A marker document without its status chat id. *)
Definition partial_marker : doc :=
  <["status_message_id" := PInt 42]> (<["time" := PInt 1000000]> ∅).

(** Shutdowns: an environment with a session file or without, a log
    channel or none, and the answer of the send. *)
Definition session_bytes : list Byte.byte := [Byte.x53; Byte.x51; Byte.x4c].

Definition stop_env (log : option Z) (file : option (list Byte.byte))
    (sent : result (option message)) : env :=
  example_env log file 1000000 sent (Ok (One status_message)) (Ok tt).

(** A collection whose snapshot document is of an earlier run and has a
    field of another name, besides a document under another identifier. *)
Definition stale_state : state :=
  State (<[IdStr (example_digest "12345:token") :=
             <["pts" := PInt 1]> (<["note" := PStr "kept"]> ∅)]>
           (<[IdInt 7 := <["other" := PInt 0]> ∅]> ∅))
        None.

(** A start whose fetch of the status message answers with an empty
    list. *)
Definition empty_fetch_env : env :=
  example_env (Some 100) None 1500000 (Ok None) (Ok (Many [])) (Ok tt).

(** A later shutdown, with another session file and status message. *)
Definition later_stop_env : env :=
  example_env (Some 100) (Some [Byte.x01]) 2000000
              (Ok (Some (Message 77 100))) (Ok (One status_message)) (Ok tt).

(** ** The help menus (lines 126-263) *)

Module Menu.

Local Open Scope list_scope.

(** A Python [str] is the sequence of its code points. *)
Abbreviation pystr := (list N).

(** An ASCII literal as a [str]. *)
Fixpoint str (s : string) : pystr :=
  match s with
  | EmptyString => []
  | String c s' => Ascii.N_of_ascii c :: str s'
  end.

(** The exceptions of the menu code. *)
Inductive exn :=
  | MessageNotModified
  | MessageDeleteForbidden
  | ValueError (msg : pystr)
  | IndexError
  | RPCError (name : string).

Inductive result (A : Type) :=
  | Ok (a : A)
  | Raise (e : exn).
Arguments Ok {A} a.
Arguments Raise {A} e.

(** [InlineKeyboardButton(text, callback_data=data)] *)
Record button := Button { btn_text : pystr; btn_data : pystr }.

(** What the menus read of a plugin. *)
Record plugin := Plugin { plug_name : pystr; helpable : bool }.

(** [a <= b] on [str]: by code points, the shorter first. *)
Fixpoint str_leb (a b : pystr) : bool :=
  match a, b with
  | [], _ => true
  | _ :: _, [] => false
  | x :: a', y :: b' =>
      if (x <? y)%N then true
      else if (x =? y)%N then str_leb a' b'
      else false
  end.

(** [l.sort(key=key)]: a stable sort, here by insertion from the right; an
    element goes before the first one whose key is not smaller, so before
    its equals that came after it. *)
Fixpoint insert_by {A} (key : A → pystr) (x : A) (l : list A) : list A :=
  match l with
  | [] => [x]
  | y :: l' =>
      if str_leb (key x) (key y) then x :: y :: l'
      else y :: insert_by key x l'
  end.

Definition sort_by {A} (key : A → pystr) (l : list A) : list A :=
  foldr (insert_by key) [] l.

(** [a] may stand before [b] in a list sorted by [key]. *)
Definition by_key {A} (key : A → pystr) (a b : A) : Prop :=
  str_leb (key a) (key b) = true.

(** [sorted(l)] on strings. *)
Definition sorted (l : list pystr) : list pystr := sort_by id l.

(** [l[i:j]] for [0 <= i <= j]. *)
Definition slice {A} (l : list A) (i j : nat) : list A :=
  take (j - i) (drop i l).

(** [range(0, n, 2)] *)
Definition range2 (n : nat) : list nat :=
  (λ k, 2 * k)%nat <$> List.seq 0 (Nat.div2 (S n)).

(** [[l[i:i+2] for i in range(0, len(l), 2)]] *)
Definition rows_of_two {A} (l : list A) : list (list A) :=
  (λ i, slice l i (i + 2)) <$> range2 (length l).

(** [s.startswith(p)] *)
Fixpoint startswith (s p : pystr) : bool :=
  match p, s with
  | [], _ => true
  | _ :: _, [] => false
  | x :: p', y :: s' => (x =? y)%N && startswith s' p'
  end.

(** [s.replace(old, new)] for a non-empty [old]: the occurrences of [old]
    are taken from left to right, without overlap.  [skip] counts the
    characters of an occurrence still to be passed over. *)
Fixpoint replace_go (old new : pystr) (skip : nat) (s : pystr) : pystr :=
  match s with
  | [] => []
  | c :: s' =>
      match skip with
      | S k => replace_go old new k s'
      | O =>
          if startswith s old
          then new ++ replace_go old new (length old - 1) s'
          else c :: replace_go old new 0 s'
      end
  end.

Definition replace (s old new : pystr) : pystr := replace_go old new 0 s.

Section Classes.

(** [str.isspace] and the class [\w] of [re], on one character. *)
Variable isspace : N → bool.
Variable isword : N → bool.

(** [s.split()]: the words between runs of white space.  [cur] is the
    word being read, backwards. *)
Fixpoint split_go (cur : pystr) (s : pystr) : list pystr :=
  match s with
  | [] => match cur with [] => [] | _ => [reverse cur] end
  | c :: s' =>
      if isspace c
      then match cur with
           | [] => split_go [] s'
           | _ => reverse cur :: split_go [] s'
           end
      else split_go (c :: cur) s'
  end.

Definition split (s : pystr) : list pystr := split_go [] s.

(** [(\w+)] followed by the character [close], matched at the start of
    [s]: the group is the longest run of word characters that [close]
    follows, as the greedy [+] gives characters back only when it must. *)
Fixpoint word_run_then (close : N) (s : pystr) : option pystr :=
  match s with
  | [] => None
  | c :: s' =>
      if isword c
      then match word_run_then close s' with
           | Some p => Some (c :: p)
           | None =>
               match s' with
               | c' :: _ => if (c' =? close)%N then Some [c] else None
               | [] => None
               end
           end
      else None
  end.

(** [re.compile(r"plugin\((\w+)\)").match(s)], as its group 1. *)
Definition match_plugin (s : pystr) : option pystr :=
  if startswith s (str "plugin(")
  then word_run_then 41 (drop 7 s)
  else None.

End Classes.

(** The arguments [self.text] is given besides the chat and the key. *)
Record text_args := TextArgs {
  positional : list pystr;
  username : option pystr;
}.

Definition no_args : text_args := TextArgs [] None.

(** The fixed buttons. *)
Definition main_menu_button : button :=
  Button (127968 :: str " Main Menu")%N (str "help_back").

Definition close_button : button :=
  Button (10007 :: str " Close")%N (str "help_close").

Definition back_button : button :=
  Button (128281 :: str " Back")%N (str "help_back").

(** What a callback handler does to the outside. *)
Inductive call :=
  | EditMessageText (text : pystr) (keyboard : list (list button))
                    (no_preview : bool)
  | DeleteMessage
  | Answer (text : pystr).

Section Handlers.

Variable isspace : N → bool.
Variable isword : N → bool.

(** [str.lower], [str.capitalize], and [self.text] (the localised text
    of a key in a chat), used as given. *)
Variable lower : pystr → pystr.
Variable capitalize : pystr → pystr.
Variable text : Z → pystr → text_args → pystr.

(** [self.bot.plugins.values()], [self.bot.user.username],
    [self.bot_name]. *)
Variable plugins : list plugin.
Variable bot_username : pystr.
Variable bot_name : pystr.

(** The answers of the transport to an edit, to the delete of the menu
    message and to [query.answer]. *)
Variable edit_message_text :
  pystr → list (list button) → bool → result unit.
Variable delete_message : result unit.
Variable answer : pystr → result unit.

(** The button of a plugin, as both builders make it. *)
Definition plugin_button (chat_id : Z) (plug : plugin) : button :=
  Button (text chat_id (lower (plug_name plug) ++ str "-button") no_args)
         (str "help_plugin(" ++ lower (plug_name plug) ++ str ")").

(** [plugin_btn.text.split()[0] if ' ' in plugin_btn.text else "General"] *)
Definition category_of (b : button) : result pystr :=
  if bool_decide (32%N ∈ btn_text b)
  then match split isspace (btn_text b) with
       | w :: _ => Ok w
       | [] => Raise IndexError
       end
  else Ok (str "General").

(** [categories[category].append(plugin_btn)], the key made when it is not
    there; the keys stay in the order they were made. *)
Fixpoint dict_append (k : pystr) (b : button)
    (d : list (pystr * list button)) : list (pystr * list button) :=
  match d with
  | [] => [(k, [b])]
  | (k', bs) :: d' =>
      if decide (k = k') then (k', bs ++ [b]) :: d'
      else (k', bs) :: dict_append k b d'
  end.

(** The loop that fills [categories]. *)
Fixpoint categorize (bs : list button) (d : list (pystr * list button))
    : result (list (pystr * list button)) :=
  match bs with
  | [] => Ok d
  | b :: bs' =>
      match category_of b with
      | Ok c => categorize bs' (dict_append c b d)
      | Raise x => Raise x
      end
  end.

Definition category_button (category : pystr) : button :=
  Button (128193 :: 32 :: category)%N
         (str "help_category(" ++ category ++ str ")").

(** [help_builder] (lines 126-167) *)
Definition help_builder (chat_id : Z) : result (list (list button)) :=
  let plugins :=
    sort_by btn_text
      (plugin_button chat_id <$> filter (λ p, helpable p = true) plugins) in
  match categorize plugins [] with
  | Raise x => Raise x
  | Ok categories =>
      let category_buttons := category_button <$> sorted (categories.*1) in
      Ok (rows_of_two category_buttons ++ [[main_menu_button; close_button]])
  end.

(** [get_plugin_help] (lines 169-175) *)
Definition get_plugin_help (plugin_name : pystr) (chat_id : Z) : pystr :=
  let text_lang :=
    text chat_id (plugin_name ++ str "-help")
         (TextArgs [] (Some bot_username)) in
  str "Here is the help for the **" ++ capitalize plugin_name
  ++ str "** plugin:" ++ [10; 10]%N ++ text_lang.

(** The test of the loop of [get_category_help]: the plugin is helpable
    and its category text is the category asked for. *)
Definition in_category (category : pystr) (chat_id : Z) (p : plugin) : bool :=
  helpable p
  && bool_decide (text chat_id (lower (plug_name p) ++ str "-category")
                       (TextArgs [str "General"] None) = category).

(** [get_category_help] (lines 177-202) *)
Definition get_category_help (category : pystr) (chat_id : Z)
    : list (list button) :=
  let plugins :=
    sort_by btn_text
      (plugin_button chat_id
       <$> filter (λ p, in_category category chat_id p = true) plugins) in
  rows_of_two plugins ++ [[back_button; close_button]].

(** The category of the route: the text [category(] and every closing
    bracket are taken out of the match, by two calls of [replace] with an
    empty replacement. *)
Definition category_of_match (m : pystr) : pystr :=
  replace (replace m (str "category(") []) (str ")") [].

(** [try: await query.edit_message_text(...) except MessageNotModified:
    pass] *)
Definition try_edit (t : pystr) (keyboard : list (list button))
    (no_preview : bool) : result unit * list call :=
  (match edit_message_text t keyboard no_preview with
   | Raise MessageNotModified => Ok tt
   | r => r
   end,
   [EditMessageText t keyboard no_preview]).

(** [on_callback_query] (lines 204-263), from the group 1 of the match
    the listener filter made on the callback data: what follows [help_]. *)
Definition on_callback_query (m : pystr) (chat_id : Z)
    : result unit * list call :=
  if decide (m = str "back") then
    match help_builder chat_id with
    | Raise x => (Raise x, [])
    | Ok keyboard =>
        try_edit (text chat_id (str "help-pm") (TextArgs [bot_name] None))
                 keyboard false
    end
  else if decide (m = str "close") then
    match delete_message with
    | Raise MessageDeleteForbidden =>
        (answer (str "I can't delete the message"),
         [DeleteMessage; Answer (str "I can't delete the message")])
    | r => (r, [DeleteMessage])
    end
  else if startswith m (str "category(") then
    let category := category_of_match m in
    let keyboard := get_category_help category chat_id in
    try_edit (str "**" ++ category ++ str " Plugins**" ++ [10; 10]%N
              ++ str "Select a plugin to view its help:")
             keyboard false
  else if startswith m (str "plugin(") then
    match match_plugin isword m with
    | None => (Raise (ValueError (str "Unable to find plugin name")), [])
    | Some plugin_name =>
        try_edit (get_plugin_help plugin_name chat_id)
                 [[back_button; close_button]] true
    end
  else (Ok tt, []).

End Handlers.

(** Character classes to run the menus with: the ASCII white space and
    the ASCII letters, digits and underscore. *)
Definition ascii_isspace (c : N) : bool :=
  ((9 <=? c) && (c <=? 13) || (28 <=? c) && (c <=? 32))%N.

Definition ascii_isword (c : N) : bool :=
  ((48 <=? c) && (c <=? 57) || (65 <=? c) && (c <=? 90)
   || (97 <=? c) && (c <=? 122) || (c =? 95))%N.

(** A lowering and a capitalisation of the ASCII letters, a table of
    texts, and plugins, to run the menus with. *)
Definition ascii_lower (s : pystr) : pystr :=
  (λ c, if (65 <=? c) && (c <=? 90) then c + 32 else c)%N <$> s.

Definition ascii_capitalize (s : pystr) : pystr :=
  match ascii_lower s with
  | [] => []
  | c :: s' => (if (97 <=? c) && (c <=? 122) then c - 32 else c)%N :: s'
  end.

Definition example_text (chat_id : Z) (key : pystr) (args : text_args)
    : pystr :=
  if decide (key = str "admin-button") then str "Group Admin"
  else if decide (key = str "notes-button") then str "Group Notes"
  else if decide (key = str "rules-button") then str "Rules"
  else if decide (key = str "admin-category") then str "Group"
  else if decide (key = str "notes-category") then str "Group"
  else key.

Definition example_plugins : list plugin :=
  [Plugin (str "Rules") true; Plugin (str "Notes") true;
   Plugin (str "Hidden") false; Plugin (str "Admin") true].

(** A transport that takes every edit. *)
Definition example_edit (t : pystr) (keyboard : list (list button))
    (no_preview : bool) : result unit := Ok tt.

End Menu.

Ltac unfold_handlers :=
  unfold on_start, on_stop, send_to_log, db_find_one, db_update_one,
    db_delete_one, set_bot_name, usec_minus, first_if_list, except_pass,
    call, on_db, bind, ret, raise, find_one;
  cbn [outcome final trace db bot_name app].

(** ** [on_start], case by case *)

Section Start.

Variable format_duration_us : Z → string.
Variable e : env.
Variable s : state.

(** No marker: the greeting is sent through [send_to_log]. *)
Lemma on_start_absent :
  db s !! marker_id = None →
  on_start format_duration_us e s =
    match LOG_CHANNEL e with
    | None => Run (Ok tt) (started e s) [EvFindOne marker_id]
    | Some c =>
        Run (match send_message e c "Starting system..." None with
             | Ok _ => Ok tt
             | Raise x => Raise x
             end)
            (started e s)
            [EvFindOne marker_id; EvSendMessage c "Starting system..." None]
    end.
Proof.
  intros H. unfold_handlers. rewrite H. cbn.
  destruct (LOG_CHANNEL e) as [c|]; cbn; [|done].
  by destruct (send_message e c _ _).
Qed.

(** A marker with a field missing: read, deleted, and nothing else. *)
Lemma on_start_incomplete (d : doc) :
  db s !! marker_id = Some d →
  incomplete d = true →
  on_start format_duration_us e s =
    Run (Ok tt) (cleared e s) [EvFindOne marker_id; EvDeleteOne marker_id].
Proof.
  unfold incomplete. intros H Hd. unfold_handlers. rewrite H.
  cbn [outcome final trace db bot_name app]. by rewrite Hd.
Qed.

(** A marker with its three fields, the time an integer. *)
Lemma on_start_complete (d : doc) (c m : pyval) (t0 : Z) :
  db s !! marker_id = Some d →
  py_get d "status_chat_id" = c →
  py_get d "status_message_id" = m →
  py_get d "time" = PInt t0 →
  is_none c = false →
  is_none m = false →
  on_start format_duration_us e s =
    match get_messages e c m with
    | Raise x => Run (Raise x) (cleared e s) (fetch_calls e c m t0)
    | Ok got =>
        match fetched_message got with
        | None => Run (Raise IndexError) (cleared e s) (fetch_calls e c m t0)
        | Some msg =>
            let text := "Bot downtime " +:+ format_duration_us (usec e - t0) in
            match LOG_CHANNEL e with
            | None =>
                Run (delete_outcome e msg) (cleared e s)
                    (fetch_calls e c m t0
                     ++ [EvLogInfo text; EvDeleteMessage msg])
            | Some l =>
                match send_message e l (text +:+ ".") (Some (msg_id msg)) with
                | Raise x =>
                    Run (Raise x) (cleared e s)
                        (fetch_calls e c m t0
                         ++ [EvLogInfo text;
                             EvSendMessage l (text +:+ ".")
                                           (Some (msg_id msg))])
                | Ok _ =>
                    Run (delete_outcome e msg) (cleared e s)
                        (fetch_calls e c m t0
                         ++ [EvLogInfo text;
                             EvSendMessage l (text +:+ ".") (Some (msg_id msg));
                             EvDeleteMessage msg])
                end
            end
        end
    end.
Proof.
  intros H Hc Hm Ht Hcn Hmn. unfold_handlers. rewrite H.
  cbn [outcome final trace db bot_name app].
  rewrite Hc, Hm, Ht, Hcn, Hmn.
  cbn [outcome final trace db bot_name app orb is_none].
  unfold fetch_calls, delete_outcome, cleared.
  destruct (get_messages e c m) as [got|x]; [|done].
  destruct (fetched_message got) as [msg|]; [|done].
  cbn [outcome final trace db bot_name app].
  destruct (LOG_CHANNEL e) as [l|].
  - destruct (send_message e l _ _) as [r|x]; [|done].
    by destruct (delete_message e msg) as [[]|[]].
  - by destruct (delete_message e msg) as [[]|[]].
Qed.

(** A marker whose time is neither [None] nor an integer: the
    subtraction raises, after the delete. *)
Lemma on_start_bad_time (d : doc) :
  db s !! marker_id = Some d →
  incomplete d = false →
  (∀ t0, py_get d "time" ≠ PInt t0) →
  on_start format_duration_us e s =
    Run (Raise TypeError) (cleared e s)
        [EvFindOne marker_id; EvDeleteOne marker_id].
Proof.
  unfold incomplete. intros H Hd Ht. unfold_handlers. rewrite H.
  cbn [outcome final trace db bot_name app]. rewrite Hd.
  destruct (py_get d "time") as [|t0| |]; try done.
  by destruct (Ht t0).
Qed.

(** Whatever the marker holds, it is deleted right after it is read and
    the collection is not touched again. *)
Lemma on_start_present (d : doc) :
  db s !! marker_id = Some d →
  ∃ o rest,
    on_start format_duration_us e s =
      Run o (cleared e s) (EvFindOne marker_id :: EvDeleteOne marker_id :: rest)
    ∧ existsb is_store_change rest = false.
Proof.
  intros H. destruct (incomplete d) eqn:Hd.
  { exists (Ok tt), []. by rewrite (on_start_incomplete d). }
  destruct (py_get d "time") as [|t0| |] eqn:Ht.
  - unfold incomplete in Hd. rewrite Ht in Hd.
    by rewrite !orb_true_r in Hd.
  - unfold incomplete in Hd. apply orb_false_elim in Hd as [Hd _].
    apply orb_false_elim in Hd as [Hc Hm].
    rewrite (on_start_complete d _ _ t0 H eq_refl eq_refl Ht Hc Hm).
    unfold fetch_calls.
    destruct (get_messages e _ _) as [got|x]; [|by eexists _, _].
    destruct (fetched_message got) as [msg|]; [|by eexists _, _].
    cbn zeta. destruct (LOG_CHANNEL e) as [l|]; [|by eexists _, _].
    destruct (send_message e l _ _) as [r|x]; by eexists _, _.
  - exists (Raise TypeError), []. split; [|done].
    apply (on_start_bad_time d); [done..|]. intros t0. by rewrite Ht.
  - exists (Raise TypeError), []. split; [|done].
    apply (on_start_bad_time d); [done..|]. intros t0. by rewrite Ht.
Qed.

End Start.

(** ** [on_stop], case by case *)

Section Stop.

Variable sha256_hexdigest : string → string.
Variable e : env.
Variable s : state.

(** No session file: the handler returns at once. *)
Lemma on_stop_no_file :
  session_file e = None →
  on_stop sha256_hexdigest e s = Run (Ok tt) s [EvFileExists].
Proof. intros H. unfold_handlers. by rewrite H. Qed.

(** A session file: the snapshot is upserted, then the status line is
    sent through [send_to_log], and the marker follows a message. *)
Lemma on_stop_file (bytes : list Byte.byte) :
  session_file e = Some bytes →
  on_stop sha256_hexdigest e s =
    let text := "Shutdowning system..." in
    let info := EvLogInfo "Preparing to shutdown..." in
    let saved := snapshotted sha256_hexdigest e s bytes in
    let calls := snapshot_calls sha256_hexdigest e bytes in
    match LOG_CHANNEL e with
    | None => Run (Ok tt) saved (calls ++ [info])
    | Some l =>
        match send_message e l text None with
        | Raise x => Run (Raise x) saved (calls ++ [EvSendMessage l text None])
        | Ok None =>
            Run (Ok tt) saved (calls ++ [EvSendMessage l text None; info])
        | Ok (Some msg) =>
            Run (Ok tt)
                (State (update_one marker_id (marker_fields msg (usec e))
                                   (db saved))
                       (bot_name s))
                (calls
                 ++ [EvSendMessage l text None; info;
                     EvUpdateOne marker_id (marker_fields msg (usec e))])
        end
    end.
Proof.
  intros H. unfold_handlers. rewrite H.
  cbn [outcome final trace db bot_name app].
  unfold snapshot_calls, snapshotted.
  destruct (LOG_CHANNEL e) as [l|]; [|done].
  destruct (send_message e l _ _) as [[msg|]|x]; done.
Qed.

End Stop.

(** ** The trace accounts for the collection *)

Lemma on_start_replay format_duration_us e s :
  db (final (on_start format_duration_us e s))
  = replay (trace (on_start format_duration_us e s)) (db s).
Proof.
  destruct (db s !! marker_id) as [d|] eqn:H.
  - destruct (on_start_present format_duration_us e s d H)
      as (o & rest & -> & Hrest).
    cbn [final trace db replay foldl apply_event cleared].
    revert Hrest. generalize (delete_one marker_id (db s)).
    induction rest as [|ev rest IH]; intros c Hrest; [done|].
    cbn [existsb] in Hrest. apply orb_false_elim in Hrest as [Hev Hrest].
    cbn [foldl]. rewrite <- IH by done. by destruct ev.
  - rewrite (on_start_absent _ _ _ H). by destruct (LOG_CHANNEL e).
Qed.

Lemma on_stop_replay sha256_hexdigest e s :
  db (final (on_stop sha256_hexdigest e s))
  = replay (trace (on_stop sha256_hexdigest e s)) (db s).
Proof.
  destruct (session_file e) as [bytes|] eqn:H.
  - rewrite (on_stop_file _ _ _ bytes H). cbn zeta.
    destruct (LOG_CHANNEL e) as [l|]; [|done].
    by destruct (send_message e l _ _) as [[msg|]|x].
  - by rewrite (on_stop_no_file _ _ _ H).
Qed.

(** ** What each handler leaves in the collection *)

(** [on_start] leaves the collection it found, less the marker. *)
Lemma on_start_db format_duration_us e s :
  db (final (on_start format_duration_us e s)) = delete_one marker_id (db s).
Proof.
  destruct (db s !! marker_id) as [d|] eqn:H.
  - by destruct (on_start_present format_duration_us e s d H)
      as (o & rest & -> & _).
  - rewrite (on_start_absent _ _ _ H). unfold delete_one.
    rewrite delete_id by done. by destruct (LOG_CHANNEL e).
Qed.

(** The two identifiers differ: one is an integer, the other a string. *)
Lemma marker_id_not_snapshot_id sha256_hexdigest e :
  marker_id ≠ snapshot_id sha256_hexdigest e.
Proof. done. Qed.

Lemma update_one_other k k' fields (c : store) :
  k ≠ k' → update_one k fields c !! k' = c !! k'.
Proof. intros H. unfold update_one. by rewrite lookup_insert_ne. Qed.

Lemma update_one_same k fields (c : store) :
  update_one k fields c !! k = Some (fields ∪ default ∅ (c !! k)).
Proof. unfold update_one. by rewrite lookup_insert_eq. Qed.

Lemma delete_one_other k k' (c : store) :
  k ≠ k' → delete_one k c !! k' = c !! k'.
Proof. intros H. unfold delete_one. by rewrite lookup_delete_ne. Qed.

(** ** The restart protocol *)


(** C2 (as amended). After a first run of [on_start], whatever it found
    and however it ended, a second run finds no marker, leaves the
    collection as it is, records no metric and deletes no message; the one
    call it makes besides the lookup is the greeting "Starting system...",
    sent exactly when a log channel is configured. *)
Theorem second_start_only_greets format_duration_us e1 e2 s :
  db (final (on_start format_duration_us e1 s)) !! marker_id = None
  ∧ db (final (on_start format_duration_us e2
                 (final (on_start format_duration_us e1 s))))
    = db (final (on_start format_duration_us e1 s))
  ∧ trace (on_start format_duration_us e2
             (final (on_start format_duration_us e1 s)))
    = EvFindOne marker_id
      :: match LOG_CHANNEL e2 with
         | Some c => [EvSendMessage c "Starting system..." None]
         | None => []
         end.
Proof.
  assert (db (final (on_start format_duration_us e1 s)) !! marker_id = None)
    as H by (rewrite on_start_db; apply lookup_delete_eq).
  split; [done|].
  rewrite (on_start_absent _ _ _ H). by destruct (LOG_CHANNEL e2).
Qed.

(** C3. Whatever document is stored as the marker (complete, partial or
    empty), [on_start] leaves no marker in the collection, and the delete is
    its first call after the lookup: the marker is already gone after these
    two calls, every call made with a value of the marker comes later, and
    none of them touches the collection. *)
Theorem marker_deleted_before_use format_duration_us e s (d : doc) :
  db s !! marker_id = Some d →
  db (final (on_start format_duration_us e s)) !! marker_id = None
  ∧ ∃ rest,
      trace (on_start format_duration_us e s)
      = EvFindOne marker_id :: EvDeleteOne marker_id :: rest
      ∧ replay [EvFindOne marker_id; EvDeleteOne marker_id] (db s)
        !! marker_id = None
      ∧ existsb is_store_change rest = false.
Proof.
  intros H. split.
  - rewrite on_start_db. apply lookup_delete_eq.
  - destruct (on_start_present format_duration_us e s d H)
      as (o & rest & -> & Hrest).
    exists rest. split_and!; [done| |done].
    cbn [replay foldl apply_event]. apply lookup_delete_eq.
Qed.

(** C5. A marker that lacks the status chat id, the status message id or
    the creation time (the key is missing or holds [None]) makes [on_start]
    return normally after the lookup and the delete: the marker is gone,
    no message is sent, no metric is recorded. *)
Theorem incomplete_marker_aborts_silently format_duration_us e s (d : doc) :
  db s !! marker_id = Some d →
  py_get d "status_chat_id" = PNone
  ∨ py_get d "status_message_id" = PNone
  ∨ py_get d "time" = PNone →
  outcome (on_start format_duration_us e s) = Ok tt
  ∧ db (final (on_start format_duration_us e s)) = delete marker_id (db s)
  ∧ db (final (on_start format_duration_us e s)) !! marker_id = None
  ∧ trace (on_start format_duration_us e s)
    = [EvFindOne marker_id; EvDeleteOne marker_id]
  ∧ existsb is_send (trace (on_start format_duration_us e s)) = false
  ∧ existsb is_metric (trace (on_start format_duration_us e s)) = false.
Proof.
  intros H Hd.
  assert (incomplete d = true) as Hi.
  { unfold incomplete.
    destruct Hd as [-> | [-> | ->]]; by rewrite ?orb_true_r. }
  rewrite (on_start_incomplete _ _ _ d H Hi).
  split_and!; try done. apply lookup_delete_eq.
Qed.

(** C4. With a marker that holds its three values, the time an integer
    [t0], and a clock that reads [t1], the one metric recorded is
    "downtime" with the value [t1 - t0], an integer of either sign, and the
    line logged once the status message is fetched is the format of that
    very value. *)
Theorem downtime_is_clock_minus_marker_time format_duration_us e s (d : doc)
    (t0 t1 : Z) :
  db s !! marker_id = Some d →
  incomplete d = false →
  py_get d "time" = PInt t0 →
  usec e = t1 →
  metrics (trace (on_start format_duration_us e s)) = [("downtime", t1 - t0)]
  ∧ info_lines (trace (on_start format_duration_us e s))
    = match get_messages e (py_get d "status_chat_id")
                           (py_get d "status_message_id") with
      | Ok got =>
          match fetched_message got with
          | Some _ => ["Bot downtime " +:+ format_duration_us (t1 - t0)]
          | None => []
          end
      | Raise _ => []
      end.
Proof.
  intros H Hd Ht <-. unfold incomplete in Hd.
  apply orb_false_elim in Hd as [Hd _].
  apply orb_false_elim in Hd as [Hc Hm].
  rewrite (on_start_complete _ _ _ d _ _ t0 H eq_refl eq_refl Ht Hc Hm).
  destruct (get_messages e _ _) as [got|x]; [|done].
  destruct (fetched_message got) as [msg|]; [|done].
  cbn zeta. destruct (LOG_CHANNEL e) as [l|]; [|done].
  by destruct (send_message e l _ _).
Qed.

(** C6 (as amended). With a complete marker (chat [c], message [m], time
    [t0]) whose message the transport fetches, [on_start] records the metric
    "downtime" with the value clock minus [t0], fetches message [m] of chat
    [c], logs the downtime line and sends it through [send_to_log]: with no
    log channel nothing is posted; with a log channel [l] the line is
    posted in [l] as a reply to message [m].  Unless that send raises, the
    delete of message [m] follows, and a forbidden delete is passed over. *)
Theorem complete_marker_reconciles format_duration_us e s (d : doc)
    (c m t0 : Z) (got : fetched) :
  db s !! marker_id = Some d →
  py_get d "status_chat_id" = PInt c →
  py_get d "status_message_id" = PInt m →
  py_get d "time" = PInt t0 →
  get_messages e (PInt c) (PInt m) = Ok got →
  fetched_message got = Some (Message m c) →
  let text := "Bot downtime " +:+ format_duration_us (usec e - t0) in
  let upto_log :=
    [EvFindOne marker_id; EvDeleteOne marker_id;
     EvLogStat "downtime" (usec e - t0);
     EvGetMessages (PInt c) (PInt m);
     EvLogInfo text] in
  let after_delete :=
    match delete_message e (Message m c) with
    | Raise MessageDeleteForbidden => Ok tt
    | r => r
    end in
  db (final (on_start format_duration_us e s)) !! marker_id = None
  ∧ match LOG_CHANNEL e with
    | None =>
        trace (on_start format_duration_us e s)
        = (upto_log ++ [EvDeleteMessage (Message m c)])%list
        ∧ outcome (on_start format_duration_us e s) = after_delete
    | Some l =>
        match send_message e l (text +:+ ".") (Some m) with
        | Raise x =>
            trace (on_start format_duration_us e s)
            = (upto_log ++ [EvSendMessage l (text +:+ ".") (Some m)])%list
            ∧ outcome (on_start format_duration_us e s) = Raise x
        | Ok _ =>
            trace (on_start format_duration_us e s)
            = (upto_log ++ [EvSendMessage l (text +:+ ".") (Some m);
                            EvDeleteMessage (Message m c)])%list
            ∧ outcome (on_start format_duration_us e s) = after_delete
        end
    end.
Proof.
  intros H Hc Hm Ht Hgot Hmsg text upto_log after_delete.
  split; [rewrite on_start_db; apply lookup_delete_eq|].
  rewrite (on_start_complete _ _ _ d _ _ t0 H Hc Hm Ht eq_refl eq_refl).
  rewrite Hgot, Hmsg. cbn zeta. cbn [msg_id].
  destruct (LOG_CHANNEL e) as [l|]; [|done].
  fold text. by destruct (send_message e l _ _).
Qed.

(** C7. With no log channel configured, [on_stop] returns normally
    without writing the marker (the marker document is the one it found)
    and without a send; and [on_start], finding no marker, returns normally
    without a send. *)
Theorem no_log_channel_no_marker_no_send format_duration_us sha256_hexdigest
    e s s' :
  LOG_CHANNEL e = None →
  db s' !! marker_id = None →
  (outcome (on_stop sha256_hexdigest e s) = Ok tt
   ∧ db (final (on_stop sha256_hexdigest e s)) !! marker_id
     = db s !! marker_id
   ∧ existsb (is_write_of marker_id) (trace (on_stop sha256_hexdigest e s))
     = false
   ∧ existsb is_send (trace (on_stop sha256_hexdigest e s)) = false)
  ∧ (outcome (on_start format_duration_us e s') = Ok tt
     ∧ existsb is_send (trace (on_start format_duration_us e s')) = false).
Proof.
  intros Hl H. split.
  - destruct (session_file e) as [bytes|] eqn:Hf.
    + rewrite (on_stop_file _ _ _ bytes Hf), Hl. cbn zeta.
      split_and!; try done.
      apply update_one_other. by intros [=].
    + by rewrite (on_stop_no_file _ _ _ Hf).
  - by rewrite (on_start_absent _ _ _ H), Hl.
Qed.

(** Where a trace splits around a call, the call is at the place the
    front part ends and the front part is what comes before it. *)
Lemma split_at_call (tr pre suf : list event) (ev : event) :
  tr = (pre ++ ev :: suf)%list →
  tr !! length pre = Some ev ∧ pre = take (length pre) tr.
Proof.
  intros ->. split.
  - by rewrite list_lookup_middle.
  - by rewrite take_app_length.
Qed.

(** C8. Wherever the trace of [on_stop] has the marker upsert, the
    snapshot upsert of this run is among the calls before it, and the
    collection those calls leave already holds the snapshot document with
    the fields of this run. *)
Theorem snapshot_upsert_precedes_marker sha256_hexdigest e s
    (pre suf : list event) (d : doc) :
  trace (on_stop sha256_hexdigest e s)
  = (pre ++ EvUpdateOne marker_id d :: suf)%list →
  ∃ bytes,
    session_file e = Some bytes
    ∧ EvUpdateOne (snapshot_id sha256_hexdigest e)
                  (snapshot_fields bytes (get_state e)) ∈ pre
    ∧ replay pre (db s) !! snapshot_id sha256_hexdigest e
      = Some (snapshot_fields bytes (get_state e)
              ∪ default ∅ (db s !! snapshot_id sha256_hexdigest e)).
Proof.
  intros H. apply split_at_call in H as [Hat Hpre].
  revert Hat Hpre. generalize (length pre) as n. intros n.
  destruct (session_file e) as [bytes|] eqn:Hf.
  - rewrite (on_stop_file _ _ _ bytes Hf). cbn zeta.
    unfold snapshot_calls, snapshot_id, marker_id.
    destruct (LOG_CHANNEL e) as [l|];
      [destruct (send_message e l _ _) as [[msg|]|x]|];
      cbn [trace app];
      do 8 (try destruct n as [|n]); intros Hat Hpre;
      try discriminate Hat.
    exists bytes. rewrite Hpre. cbn [take]. split_and!; [done| |].
    + rewrite !elem_of_cons. auto.
    + cbn [replay foldl apply_event]. apply update_one_same.
  - rewrite (on_stop_no_file _ _ _ Hf). cbn [trace].
    by destruct n as [|[|n]].
Qed.

(** C9 (as amended). With a session file, a log channel, and a send of the
    status line that gives no message, [on_stop] writes no marker: the
    collection it leaves is the one it found with the snapshot upserted.  A
    send that returns [None] ends the handler normally; a send that raises
    ends it with that exception. *)
Theorem failed_send_writes_no_marker sha256_hexdigest e s (l : Z)
    (bytes : list Byte.byte) :
  session_file e = Some bytes →
  LOG_CHANNEL e = Some l →
  (∀ msg, send_message e l "Shutdowning system..." None ≠ Ok (Some msg)) →
  db (final (on_stop sha256_hexdigest e s))
  = update_one (snapshot_id sha256_hexdigest e)
               (snapshot_fields bytes (get_state e)) (db s)
  ∧ db (final (on_stop sha256_hexdigest e s)) !! marker_id
    = db s !! marker_id
  ∧ existsb (is_write_of marker_id) (trace (on_stop sha256_hexdigest e s))
    = false
  ∧ outcome (on_stop sha256_hexdigest e s)
    = match send_message e l "Shutdowning system..." None with
      | Raise x => Raise x
      | Ok _ => Ok tt
      end.
Proof.
  intros Hf Hl Hsend. rewrite (on_stop_file _ _ _ bytes Hf), Hl. cbn zeta.
  assert (update_one (snapshot_id sha256_hexdigest e)
            (snapshot_fields bytes (get_state e)) (db s) !! marker_id
          = db s !! marker_id) as Hm
    by (apply update_one_other; by intros [=]).
  destruct (send_message e l _ _) as [[msg|]|x] eqn:Hs; [|done..].
  by destruct (Hsend msg).
Qed.

(** C10. The marker identifier (the integer 5) and the snapshot identifier
    (a string, whatever the digest and the token) differ.  So an upsert
    under either leaves the document under the other as it is, and so does
    the delete of the marker; [on_start] leaves the snapshot document as it
    found it; [on_stop] leaves as snapshot document what its upsert wrote
    (or the one it found, with no session file), and as marker document the
    one it found or that one updated with the marker fields. *)
Theorem marker_and_snapshot_do_not_interfere format_duration_us
    sha256_hexdigest e s :
  marker_id ≠ snapshot_id sha256_hexdigest e
  ∧ (∀ fields (c : store),
       update_one (snapshot_id sha256_hexdigest e) fields c !! marker_id
       = c !! marker_id)
  ∧ (∀ fields (c : store),
       update_one marker_id fields c !! snapshot_id sha256_hexdigest e
       = c !! snapshot_id sha256_hexdigest e)
  ∧ (∀ c : store,
       delete_one marker_id c !! snapshot_id sha256_hexdigest e
       = c !! snapshot_id sha256_hexdigest e)
  ∧ db (final (on_start format_duration_us e s))
      !! snapshot_id sha256_hexdigest e
    = db s !! snapshot_id sha256_hexdigest e
  ∧ db (final (on_stop sha256_hexdigest e s))
      !! snapshot_id sha256_hexdigest e
    = match session_file e with
      | Some bytes =>
          Some (snapshot_fields bytes (get_state e)
                ∪ default ∅ (db s !! snapshot_id sha256_hexdigest e))
      | None => db s !! snapshot_id sha256_hexdigest e
      end
  ∧ (db (final (on_stop sha256_hexdigest e s)) !! marker_id
     = db s !! marker_id
     ∨ ∃ msg,
         db (final (on_stop sha256_hexdigest e s)) !! marker_id
         = Some (marker_fields msg (usec e)
                 ∪ default ∅ (db s !! marker_id))).
Proof.
  pose proof (marker_id_not_snapshot_id sha256_hexdigest e) as Hne.
  assert (snapshot_id sha256_hexdigest e ≠ marker_id) as Hne' by done.
  split_and!.
  - done.
  - intros fields c. by apply update_one_other.
  - intros fields c. by apply update_one_other.
  - intros c. by apply delete_one_other.
  - rewrite on_start_db. by apply delete_one_other.
  - destruct (session_file e) as [bytes|] eqn:Hf.
    + rewrite (on_stop_file _ _ _ bytes Hf). cbn zeta.
      destruct (LOG_CHANNEL e) as [l|];
        [destruct (send_message e l _ _) as [[msg|]|x]|];
        cbn [final db]; rewrite ?(update_one_other marker_id) by done;
        apply update_one_same.
    + by rewrite (on_stop_no_file _ _ _ Hf).
  - destruct (session_file e) as [bytes|] eqn:Hf.
    + rewrite (on_stop_file _ _ _ bytes Hf). cbn zeta.
      destruct (LOG_CHANNEL e) as [l|];
        [destruct (send_message e l _ _) as [[msg|]|x]|];
        cbn [final db snapshotted];
        try (left; by apply update_one_other).
      right. exists msg. rewrite update_one_same.
      by rewrite update_one_other.
    + left. by rewrite (on_stop_no_file _ _ _ Hf).
Qed.

(** ** The protocol on concrete runs *)


(** C2, counterexample to the claim as stated: with a log channel, the
    second of two runs of [on_start] on an empty collection posts the
    greeting, which is a side effect. *)
Lemma second_start_posts_greeting :
  trace (on_start example_format (scenario_env (Some 100) 1500000)
           (final (on_start example_format (scenario_env (Some 100) 1500000)
                     empty_state)))
  = [EvFindOne marker_id; EvSendMessage 100 "Starting system..." None]
  ∧ existsb is_side_effect
      (trace (on_start example_format (scenario_env (Some 100) 1500000)
                (final (on_start example_format
                          (scenario_env (Some 100) 1500000) empty_state))))
    = true.
Proof. split; reflexivity. Qed.

(** C3, an instance: an empty document stored as the marker. *)
Lemma empty_marker_run :
  db (with_marker ∅) !! marker_id = Some ∅
  ∧ db (final (on_start example_format (scenario_env (Some 100) 1500000)
                 (with_marker ∅))) !! marker_id = None.
Proof.
  split; [reflexivity|].
  exact (proj1 (marker_deleted_before_use example_format
                  (scenario_env (Some 100) 1500000) (with_marker ∅) ∅
                  eq_refl)).
Defined.

(** C4, an instance with the clock behind the marker: the marker says
    1500000, the clock reads 1000000, and the downtime recorded and
    formatted is -500000. *)
Lemma downtime_negative_run :
  db (with_marker (marker_fields status_message 1500000)) !! marker_id
  = Some (marker_fields status_message 1500000)
  ∧ incomplete (marker_fields status_message 1500000) = false
  ∧ py_get (marker_fields status_message 1500000) "time" = PInt 1500000
  ∧ usec (scenario_env (Some 100) 1000000) = 1000000
  ∧ metrics (trace (on_start example_format (scenario_env (Some 100) 1000000)
                      (with_marker (marker_fields status_message 1500000))))
    = [("downtime", -500000)]
  ∧ info_lines
      (trace (on_start example_format (scenario_env (Some 100) 1000000)
                (with_marker (marker_fields status_message 1500000))))
    = ["Bot downtime -500000 us"].
Proof.
  split_and!; [reflexivity..| |];
    apply (downtime_is_clock_minus_marker_time example_format
             (scenario_env (Some 100) 1000000)
             (with_marker (marker_fields status_message 1500000))
             (marker_fields status_message 1500000) 1500000 1000000);
    reflexivity.
Defined.

(** C5, an instance: the marker lacks its status chat id. *)
Lemma incomplete_marker_run :
  db (with_marker partial_marker) !! marker_id = Some partial_marker
  ∧ py_get partial_marker "status_chat_id" = PNone
  ∧ outcome (on_start example_format (scenario_env (Some 100) 1500000)
               (with_marker partial_marker)) = Ok tt
  ∧ trace (on_start example_format (scenario_env (Some 100) 1500000)
             (with_marker partial_marker))
    = [EvFindOne marker_id; EvDeleteOne marker_id].
Proof.
  split_and!; [reflexivity..| |];
    apply (incomplete_marker_aborts_silently example_format
             (scenario_env (Some 100) 1500000)
             (with_marker partial_marker) partial_marker eq_refl
             (or_introl eq_refl)).
Defined.

(** C6, an instance: the marker of message 42 in chat 100 at 1000000, the
    clock at 1500000, the log channel set to chat 100.  The downtime
    recorded is 500000, the reply goes to message 42, the delete follows. *)
Lemma scenario_a_run :
  db (with_marker scenario_marker) !! marker_id = Some scenario_marker
  ∧ py_get scenario_marker "status_chat_id" = PInt 100
  ∧ py_get scenario_marker "status_message_id" = PInt 42
  ∧ py_get scenario_marker "time" = PInt 1000000
  ∧ get_messages (scenario_env (Some 100) 1500000) (PInt 100) (PInt 42)
    = Ok (One status_message)
  ∧ fetched_message (One status_message) = Some (Message 42 100)
  ∧ trace (on_start example_format (scenario_env (Some 100) 1500000)
             (with_marker scenario_marker))
    = [EvFindOne marker_id; EvDeleteOne marker_id;
       EvLogStat "downtime" 500000;
       EvGetMessages (PInt 100) (PInt 42);
       EvLogInfo "Bot downtime 500000 us";
       EvSendMessage 100 "Bot downtime 500000 us." (Some 42);
       EvDeleteMessage (Message 42 100)]
  ∧ outcome (on_start example_format (scenario_env (Some 100) 1500000)
               (with_marker scenario_marker)) = Ok tt.
Proof.
  split_and!; [reflexivity..| |];
    apply (complete_marker_reconciles example_format
             (scenario_env (Some 100) 1500000) (with_marker scenario_marker)
             scenario_marker 100 42 1000000 (One status_message)
             eq_refl eq_refl eq_refl eq_refl eq_refl eq_refl).
Defined.

(** C6, counterexample to the claim as stated: the same marker and clock
    with no log channel configured.  The metric is recorded and the status
    message deleted, but no reply is posted, to message 42 or otherwise. *)
Lemma complete_marker_without_log_channel_posts_no_reply :
  db (with_marker scenario_marker) !! marker_id = Some scenario_marker
  ∧ trace (on_start example_format (scenario_env None 1500000)
             (with_marker scenario_marker))
    = [EvFindOne marker_id; EvDeleteOne marker_id;
       EvLogStat "downtime" 500000;
       EvGetMessages (PInt 100) (PInt 42);
       EvLogInfo "Bot downtime 500000 us";
       EvDeleteMessage (Message 42 100)]
  ∧ existsb is_send
      (trace (on_start example_format (scenario_env None 1500000)
                (with_marker scenario_marker)))
    = false.
Proof. split_and!; reflexivity. Qed.

(** C7, an instance: no log channel; a shutdown with a session file, and
    a start on an empty collection. *)
Lemma no_log_channel_run :
  LOG_CHANNEL (stop_env None (Some session_bytes) (Ok None)) = None
  ∧ db empty_state !! marker_id = None
  ∧ outcome (on_stop example_digest
               (stop_env None (Some session_bytes) (Ok None)) empty_state)
    = Ok tt
  ∧ db (final (on_stop example_digest
                 (stop_env None (Some session_bytes) (Ok None)) empty_state))
      !! marker_id = None
  ∧ existsb is_send
      (trace (on_start example_format
                (stop_env None (Some session_bytes) (Ok None)) empty_state))
    = false.
Proof.
  split_and!; [reflexivity..| | |];
    apply (no_log_channel_no_marker_no_send example_format example_digest
             (stop_env None (Some session_bytes) (Ok None))
             empty_state empty_state eq_refl eq_refl).
Defined.

(** C8, an instance: a shutdown that writes both documents. *)
Lemma both_documents_run :
  trace (on_stop example_digest
           (stop_env (Some 100) (Some session_bytes)
                     (Ok (Some status_message)))
           empty_state)
  = (snapshot_calls example_digest
       (stop_env (Some 100) (Some session_bytes) (Ok (Some status_message)))
       session_bytes
     ++ [EvSendMessage 100 "Shutdowning system..." None;
         EvLogInfo "Preparing to shutdown..."]
     ++ EvUpdateOne marker_id (marker_fields status_message 1000000) :: [])%list
  ∧ ∃ bytes,
      session_file (stop_env (Some 100) (Some session_bytes)
                             (Ok (Some status_message))) = Some bytes
      ∧ EvUpdateOne
          (snapshot_id example_digest
             (stop_env (Some 100) (Some session_bytes)
                       (Ok (Some status_message))))
          (snapshot_fields bytes
             (get_state (stop_env (Some 100) (Some session_bytes)
                                  (Ok (Some status_message)))))
        ∈ (snapshot_calls example_digest
             (stop_env (Some 100) (Some session_bytes)
                       (Ok (Some status_message)))
             session_bytes
           ++ [EvSendMessage 100 "Shutdowning system..." None;
               EvLogInfo "Preparing to shutdown..."])%list.
Proof.
  split; [reflexivity|].
  destruct (snapshot_upsert_precedes_marker example_digest
              (stop_env (Some 100) (Some session_bytes)
                        (Ok (Some status_message)))
              empty_state
              (snapshot_calls example_digest
                 (stop_env (Some 100) (Some session_bytes)
                           (Ok (Some status_message)))
                 session_bytes
               ++ [EvSendMessage 100 "Shutdowning system..." None;
                   EvLogInfo "Preparing to shutdown..."])%list
              [] (marker_fields status_message 1000000) eq_refl)
    as (bytes & Hf & Hin & _).
  exists bytes. exact (conj Hf Hin).
Defined.

(** C9, an instance: the send of the status line raises. *)
Lemma failed_send_run :
  session_file (stop_env (Some 100) (Some session_bytes)
                         (Raise (RPCError "ChannelPrivate")))
  = Some session_bytes
  ∧ LOG_CHANNEL (stop_env (Some 100) (Some session_bytes)
                          (Raise (RPCError "ChannelPrivate"))) = Some 100
  ∧ (∀ msg,
       send_message (stop_env (Some 100) (Some session_bytes)
                              (Raise (RPCError "ChannelPrivate")))
         100 "Shutdowning system..." None ≠ Ok (Some msg))
  ∧ db (final (on_stop example_digest
                 (stop_env (Some 100) (Some session_bytes)
                           (Raise (RPCError "ChannelPrivate")))
                 empty_state)) !! marker_id = None.
Proof.
  split_and!; [reflexivity..|discriminate|].
  apply (failed_send_writes_no_marker example_digest
           (stop_env (Some 100) (Some session_bytes)
                     (Raise (RPCError "ChannelPrivate")))
           empty_state 100 session_bytes eq_refl eq_refl).
  discriminate.
Defined.

(** C9, counterexample to the claim as stated: with a session file and a
    log channel, a send that raises ends [on_stop] with that exception;
    the failure is not kept inside the handler. *)
Lemma failed_send_propagates :
  outcome (on_stop example_digest
             (stop_env (Some 100) (Some session_bytes)
                       (Raise (RPCError "ChannelPrivate")))
             empty_state)
  = Raise (RPCError "ChannelPrivate")
  ∧ outcome (on_stop example_digest
               (stop_env (Some 100) (Some session_bytes)
                         (Raise (RPCError "ChannelPrivate")))
               empty_state)
    ≠ Ok tt.
Proof. split; [reflexivity|discriminate]. Qed.

(** ** More on the restart protocol *)

Lemma marker_fields_get msg now (old : doc) :
  py_get (marker_fields msg now ∪ old) "status_chat_id"
  = PInt (msg_chat_id msg)
  ∧ py_get (marker_fields msg now ∪ old) "status_message_id"
    = PInt (msg_id msg)
  ∧ py_get (marker_fields msg now ∪ old) "time" = PInt now.
Proof.
  unfold py_get, marker_fields.
  split_and!; by erewrite lookup_union_Some_l by by simplify_map_eq.
Qed.

(** What [on_start] does with a marker that holds its three values, the
    time an integer, a metric and a fetch. *)
Lemma on_start_complete_calls format_duration_us e s (d : doc) (c m : pyval)
    (t0 : Z) :
  db s !! marker_id = Some d →
  py_get d "status_chat_id" = c →
  py_get d "status_message_id" = m →
  py_get d "time" = PInt t0 →
  is_none c = false →
  is_none m = false →
  ∃ o rest,
    on_start format_duration_us e s
    = Run o (cleared e s) (fetch_calls e c m t0 ++ rest)
    ∧ metrics rest = []
    ∧ existsb is_store_change rest = false.
Proof.
  intros H Hc Hm Ht Hcn Hmn.
  rewrite (on_start_complete _ _ _ d c m t0 H Hc Hm Ht Hcn Hmn).
  destruct (get_messages e c m) as [got|x];
    [|by eexists _, []; rewrite app_nil_r].
  destruct (fetched_message got) as [msg|];
    [|by eexists _, []; rewrite app_nil_r].
  cbn zeta. destruct (LOG_CHANNEL e) as [l|]; [|by eexists _, _].
  destruct (send_message e l _ _) as [r|x]; by eexists _, _.
Qed.

(** X1. A shutdown that got its status message, then a start: the marker
    [on_stop] leaves is complete whatever was stored under its identifier
    before, so the start never takes the silent way out.  It records as
    downtime the clock of the start minus the clock of the shutdown, fetches
    the very message the shutdown sent, consumes the marker and leaves the
    snapshot where the shutdown put it. *)
Theorem shutdown_then_start_reports_downtime format_duration_us
    sha256_hexdigest e1 e2 s (bytes : list Byte.byte) (l : Z) (msg : message) :
  session_file e1 = Some bytes →
  LOG_CHANNEL e1 = Some l →
  send_message e1 l "Shutdowning system..." None = Ok (Some msg) →
  outcome (on_stop sha256_hexdigest e1 s) = Ok tt
  ∧ metrics (trace (on_start format_duration_us e2
                      (final (on_stop sha256_hexdigest e1 s))))
    = [("downtime", usec e2 - usec e1)]
  ∧ EvGetMessages (PInt (msg_chat_id msg)) (PInt (msg_id msg))
    ∈ trace (on_start format_duration_us e2
               (final (on_stop sha256_hexdigest e1 s)))
  ∧ db (final (on_start format_duration_us e2
                 (final (on_stop sha256_hexdigest e1 s)))) !! marker_id
    = None
  ∧ db (final (on_start format_duration_us e2
                 (final (on_stop sha256_hexdigest e1 s))))
      !! snapshot_id sha256_hexdigest e1
    = Some (snapshot_fields bytes (get_state e1)
            ∪ default ∅ (db s !! snapshot_id sha256_hexdigest e1)).
Proof.
  intros Hf Hl Hsend.
  rewrite (on_stop_file _ _ _ bytes Hf). cbn zeta. rewrite Hl, Hsend.
  cbn [outcome final]. split; [done|].
  set (s1 := State _ _).
  assert (db s1 !! marker_id
          = Some (marker_fields msg (usec e1)
                  ∪ default ∅ (db (snapshotted sha256_hexdigest e1 s bytes)
                               !! marker_id))) as Hd
    by apply update_one_same.
  destruct (marker_fields_get msg (usec e1)
              (default ∅ (db (snapshotted sha256_hexdigest e1 s bytes)
                          !! marker_id))) as (Hc & Hm & Ht).
  destruct (on_start_complete_calls format_duration_us e2 s1 _ _ _ _
              Hd Hc Hm Ht eq_refl eq_refl) as (o & rest & -> & Hmet & _).
  cbn [trace final db cleared]. split_and!.
  - unfold metrics in *. rewrite omap_app, Hmet. done.
  - unfold fetch_calls. rewrite elem_of_app, !elem_of_cons. auto 10.
  - apply lookup_delete_eq.
  - rewrite delete_one_other by done.
    unfold s1. cbn [db snapshotted].
    rewrite update_one_other by done. apply update_one_same.
Qed.

(** The five fields of the snapshot. *)
Lemma snapshot_fields_lookup bytes data (key : string) :
  snapshot_fields bytes data !! key
  = if decide (key = "session") then Some (PBytes bytes)
    else if decide (key = "date") then Some (PInt (date data))
    else if decide (key = "pts") then Some (PInt (pts data))
    else if decide (key = "qts") then Some (PInt (qts data))
    else if decide (key = "seq") then Some (PInt (seq data))
    else None.
Proof.
  unfold snapshot_fields. repeat case_decide; by simplify_map_eq.
Qed.

(** X2. With a session file, the snapshot document [on_stop] leaves has the
    bytes of the file and the four counters of this run, whatever the
    document held before; a field of another name that the document had
    stays in it, as [$set] does not drop fields. *)
Theorem on_stop_overwrites_snapshot_fields sha256_hexdigest e s
    (bytes : list Byte.byte) :
  session_file e = Some bytes →
  ∃ d : doc,
    db (final (on_stop sha256_hexdigest e s)) !! snapshot_id sha256_hexdigest e
    = Some d
    ∧ py_get d "session" = PBytes bytes
    ∧ py_get d "date" = PInt (date (get_state e))
    ∧ py_get d "pts" = PInt (pts (get_state e))
    ∧ py_get d "qts" = PInt (qts (get_state e))
    ∧ py_get d "seq" = PInt (seq (get_state e))
    ∧ ∀ key : string,
        key ∉ ["session"; "date"; "pts"; "qts"; "seq"] →
        d !! key
        = default ∅ (db s !! snapshot_id sha256_hexdigest e) !! key.
Proof.
  intros Hf.
  exists (snapshot_fields bytes (get_state e)
          ∪ default ∅ (db s !! snapshot_id sha256_hexdigest e)).
  split.
  { rewrite (on_stop_file _ _ _ bytes Hf). cbn zeta.
    destruct (LOG_CHANNEL e) as [l|];
      [destruct (send_message e l _ _) as [[msg|]|x]|];
      cbn [final db snapshotted];
      rewrite ?(update_one_other marker_id) by done;
      apply update_one_same. }
  unfold py_get. rewrite !lookup_union, !snapshot_fields_lookup.
  split_and!; try (by destruct (_ !! _)).
  intros key Hkey. rewrite lookup_union, snapshot_fields_lookup.
  rewrite !not_elem_of_cons in Hkey.
  destruct Hkey as (? & ? & ? & ? & ? & _).
  repeat case_decide; try done. by destruct (_ !! key).
Qed.

(** X4. The handlers keep to their own documents: [on_start] leaves every
    document other than the marker as it found it, and [on_stop] every
    document other than the marker and the snapshot. *)
Theorem handlers_leave_other_documents format_duration_us sha256_hexdigest
    e s (k : doc_id) :
  k ≠ marker_id →
  db (final (on_start format_duration_us e s)) !! k = db s !! k
  ∧ (k ≠ snapshot_id sha256_hexdigest e →
     db (final (on_stop sha256_hexdigest e s)) !! k = db s !! k).
Proof.
  intros Hk. split.
  - rewrite on_start_db. by apply delete_one_other.
  - intros Hk'. destruct (session_file e) as [bytes|] eqn:Hf.
    + rewrite (on_stop_file _ _ _ bytes Hf). cbn zeta.
      destruct (LOG_CHANNEL e) as [l|];
        [destruct (send_message e l _ _) as [[msg|]|x]|];
        cbn [final db snapshotted];
        by rewrite !update_one_other by done.
    + by rewrite (on_stop_no_file _ _ _ Hf).
Qed.

(** X5. When the status message of a complete marker cannot be had (the fetch
    raises, or answers with an empty list, which makes [status_msg[0]] raise
    [IndexError]), [on_start] ends with that exception.  By then the marker
    is deleted and the downtime metric recorded; no line is logged, no reply
    sent and no message deleted. *)
Theorem failed_fetch_stops_reconciliation format_duration_us e s (d : doc)
    (t0 : Z) (x : exn) :
  db s !! marker_id = Some d →
  incomplete d = false →
  py_get d "time" = PInt t0 →
  get_messages e (py_get d "status_chat_id") (py_get d "status_message_id")
  = Raise x
  ∨ (get_messages e (py_get d "status_chat_id") (py_get d "status_message_id")
     = Ok (Many []) ∧ x = IndexError) →
  on_start format_duration_us e s
  = Run (Raise x) (cleared e s)
        [EvFindOne marker_id; EvDeleteOne marker_id;
         EvLogStat "downtime" (usec e - t0);
         EvGetMessages (py_get d "status_chat_id")
                       (py_get d "status_message_id")].
Proof.
  intros H Hd Ht Hget. unfold incomplete in Hd.
  apply orb_false_elim in Hd as [Hd _].
  apply orb_false_elim in Hd as [Hc Hm].
  rewrite (on_start_complete _ _ _ d _ _ t0 H eq_refl eq_refl Ht Hc Hm).
  by destruct Hget as [-> | [-> ->]].
Qed.

(** X6. Neither handler sends anywhere but to the configured log channel, and
    each sends at most one message per run. *)
Theorem handlers_send_only_to_log_channel format_duration_us sha256_hexdigest
    e s :
  (length (sends (trace (on_start format_duration_us e s))) ≤ 1)%nat
  ∧ (length (sends (trace (on_stop sha256_hexdigest e s))) ≤ 1)%nat
  ∧ ∀ chat text reply_to,
      (chat, text, reply_to)
        ∈ (sends (trace (on_start format_duration_us e s))
           ++ sends (trace (on_stop sha256_hexdigest e s)))%list →
      LOG_CHANNEL e = Some chat.
Proof.
  assert (∀ tr,
    (tr = trace (on_start format_duration_us e s)
     ∨ tr = trace (on_stop sha256_hexdigest e s)) →
    (length (sends tr) ≤ 1)%nat
    ∧ ∀ chat text reply_to,
        (chat, text, reply_to) ∈ sends tr → LOG_CHANNEL e = Some chat) as H.
  { intros tr [-> | ->].
    - destruct (db s !! marker_id) as [d|] eqn:H.
      + destruct (incomplete d) eqn:Hd.
        { rewrite (on_start_incomplete _ _ _ d H Hd). cbn. split; [lia|].
          intros ??? Hin. by apply elem_of_nil in Hin. }
        destruct (py_get d "time") as [|t0| |] eqn:Ht.
        * unfold incomplete in Hd. rewrite Ht in Hd.
          by rewrite !orb_true_r in Hd.
        * unfold incomplete in Hd. apply orb_false_elim in Hd as [Hd _].
          apply orb_false_elim in Hd as [Hc Hm].
          rewrite (on_start_complete _ _ _ d _ _ t0 H eq_refl eq_refl
                     Ht Hc Hm).
          destruct (get_messages e _ _) as [got|x];
            [destruct (fetched_message got) as [msg|]|];
            cbn zeta;
            [destruct (LOG_CHANNEL e) as [l|];
             [destruct (send_message e l _ _) as [r|x]|]| |];
            cbn; (split; [lia|]); intros ??? Hin;
            rewrite ?elem_of_cons in Hin;
            try (by apply elem_of_nil in Hin);
            destruct Hin as [[= -> _ _]|Hin]; try done;
            by apply elem_of_nil in Hin.
        * rewrite (on_start_bad_time _ _ _ d H Hd)
            by (intros t0; by rewrite Ht).
          cbn. split; [lia|]. intros ??? Hin. by apply elem_of_nil in Hin.
        * rewrite (on_start_bad_time _ _ _ d H Hd)
            by (intros t0; by rewrite Ht).
          cbn. split; [lia|]. intros ??? Hin. by apply elem_of_nil in Hin.
      + rewrite (on_start_absent _ _ _ H).
        destruct (LOG_CHANNEL e) as [l|]; cbn; (split; [lia|]);
          intros ??? Hin; rewrite ?elem_of_cons in Hin;
          try (by apply elem_of_nil in Hin).
        destruct Hin as [[= -> _ _]|Hin]; [done|].
        by apply elem_of_nil in Hin.
    - destruct (session_file e) as [bytes|] eqn:Hf.
      + rewrite (on_stop_file _ _ _ bytes Hf). cbn zeta.
        destruct (LOG_CHANNEL e) as [l|];
          [destruct (send_message e l _ _) as [[msg|]|x]|];
          cbn; (split; [lia|]); intros ??? Hin;
          rewrite ?elem_of_cons in Hin;
          try (by apply elem_of_nil in Hin);
          destruct Hin as [[= -> _ _]|Hin]; try done;
          by apply elem_of_nil in Hin.
      + rewrite (on_stop_no_file _ _ _ Hf). cbn. split; [lia|].
        intros ??? Hin. by apply elem_of_nil in Hin. }
  split_and!.
  - apply (H _ (or_introl eq_refl)).
  - apply (H _ (or_intror eq_refl)).
  - intros chat text reply_to [Hin|Hin]%elem_of_app.
    + by apply (proj2 (H _ (or_introl eq_refl)) chat text reply_to).
    + by apply (proj2 (H _ (or_intror eq_refl)) chat text reply_to).
Qed.

(** X7. [on_start] assigns [bot_name] before anything that can fail, so the
    name is set however the handler ends; [on_stop] leaves it alone. *)
Theorem bot_name_set_on_every_path format_duration_us sha256_hexdigest e s :
  bot_name (final (on_start format_duration_us e s)) = Some (full_name e)
  ∧ bot_name (final (on_stop sha256_hexdigest e s)) = bot_name s.
Proof.
  split.
  - destruct (db s !! marker_id) as [d|] eqn:H.
    + by destruct (on_start_present format_duration_us e s d H)
        as (o & rest & -> & _).
    + rewrite (on_start_absent _ _ _ H). by destruct (LOG_CHANNEL e).
  - destruct (session_file e) as [bytes|] eqn:Hf.
    + rewrite (on_stop_file _ _ _ bytes Hf). cbn zeta.
      by destruct (LOG_CHANNEL e) as [l|];
        [destruct (send_message e l _ _) as [[msg|]|x]|].
    + by rewrite (on_stop_no_file _ _ _ Hf).
Qed.

Lemma update_one_lookup k k' fields (c : store) :
  update_one k fields c !! k'
  = if decide (k = k') then Some (fields ∪ default ∅ (c !! k)) else c !! k'.
Proof.
  case_decide as H.
  - subst. apply update_one_same.
  - by apply update_one_other.
Qed.

(** A [$set] of fields over a [$set] of fields of the same names leaves
    what the later one alone leaves. *)
Lemma union_absorb (f1 f2 o : doc) :
  (∀ key, is_Some (f1 !! key) → is_Some (f2 !! key)) →
  f2 ∪ (f1 ∪ o) = f2 ∪ o.
Proof.
  intros H. apply map_eq. intros key. rewrite !lookup_union.
  destruct (f2 !! key) as [v2|] eqn:E2; [by destruct (f1 !! key), (o !! key)|].
  destruct (f1 !! key) as [v1|] eqn:E1; [|by destruct (o !! key)].
  destruct (H key) as [v Hv]; [by rewrite E1|congruence].
Qed.

Lemma snapshot_fields_same_keys b1 d1 b2 d2 (key : string) :
  is_Some (snapshot_fields b1 d1 !! key) →
  is_Some (snapshot_fields b2 d2 !! key).
Proof.
  rewrite !snapshot_fields_lookup. by repeat case_decide.
Qed.

Lemma marker_fields_same_keys m1 t1 m2 t2 (key : string) :
  is_Some (marker_fields m1 t1 !! key) →
  is_Some (marker_fields m2 t2 !! key).
Proof.
  unfold marker_fields.
  destruct (decide (key = "status_chat_id")) as [->|];
    [by simplify_map_eq|].
  destruct (decide (key = "status_message_id")) as [->|];
    [by simplify_map_eq|].
  destruct (decide (key = "time")) as [->|]; by simplify_map_eq.
Qed.

(** The collection [on_stop] leaves, written out. *)
Lemma on_stop_db sha256_hexdigest e s :
  db (final (on_stop sha256_hexdigest e s))
  = match session_file e with
    | None => db s
    | Some bytes =>
        let saved := db (snapshotted sha256_hexdigest e s bytes) in
        match LOG_CHANNEL e with
        | None => saved
        | Some l =>
            match send_message e l "Shutdowning system..." None with
            | Ok (Some msg) =>
                update_one marker_id (marker_fields msg (usec e)) saved
            | _ => saved
            end
        end
    end.
Proof.
  destruct (session_file e) as [bytes|] eqn:Hf.
  - rewrite (on_stop_file _ _ _ bytes Hf). cbn zeta.
    by destruct (LOG_CHANNEL e) as [l|];
      [destruct (send_message e l _ _) as [[msg|]|x]|].
  - by rewrite (on_stop_no_file _ _ _ Hf).
Qed.

(** X3. A later shutdown supersedes an earlier one.  When a shutdown finds
    its session file and gets its status message, the collection it leaves
    is the same whether or not an earlier shutdown of the same bot ran
    before it, however that one ended: the snapshot and the marker hold the
    values of the later run only. *)
Theorem later_shutdown_supersedes sha256_hexdigest e1 e2 s
    (bytes : list Byte.byte) (l : Z) (msg : message) :
  BOT_TOKEN e1 = BOT_TOKEN e2 →
  session_file e2 = Some bytes →
  LOG_CHANNEL e2 = Some l →
  send_message e2 l "Shutdowning system..." None = Ok (Some msg) →
  db (final (on_stop sha256_hexdigest e2
               (final (on_stop sha256_hexdigest e1 s))))
  = db (final (on_stop sha256_hexdigest e2 s)).
Proof.
  intros Htok Hf Hl Hsend.
  rewrite (on_stop_db _ e2 s), (on_stop_db _ e2 (final _)).
  rewrite Hf, Hl, Hsend. cbn zeta. cbn [snapshotted db].
  rewrite (on_stop_db _ e1 s).
  assert (snapshot_id sha256_hexdigest e1 = snapshot_id sha256_hexdigest e2)
    as Hid by (unfold snapshot_id; by rewrite Htok).
  pose proof (marker_id_not_snapshot_id sha256_hexdigest e2) as Hne.
  apply map_eq. intros k. rewrite !update_one_lookup.
  destruct (session_file e1) as [bytes1|]; [|done].
  cbn zeta. cbn [snapshotted db]. rewrite Hid.
  destruct (LOG_CHANNEL e1) as [l1|];
    [destruct (send_message e1 l1 _ _) as [[msg1|]|x]|];
    repeat case_decide; subst; try done;
    rewrite ?update_one_lookup; repeat case_decide; try done;
    cbn [default]; f_equal; apply union_absorb;
    first [apply snapshot_fields_same_keys|apply marker_fields_same_keys].
Qed.

(** An instance: a shutdown at 1000000 that got message 42 of chat 100
    as its status message, and a start at 1500000. *)
Lemma shutdown_then_start_run :
  session_file (stop_env (Some 100) (Some session_bytes)
                         (Ok (Some status_message))) = Some session_bytes
  ∧ LOG_CHANNEL (stop_env (Some 100) (Some session_bytes)
                          (Ok (Some status_message))) = Some 100
  ∧ send_message (stop_env (Some 100) (Some session_bytes)
                           (Ok (Some status_message)))
      100 "Shutdowning system..." None = Ok (Some status_message)
  ∧ metrics
      (trace (on_start example_format (scenario_env (Some 100) 1500000)
                (final (on_stop example_digest
                          (stop_env (Some 100) (Some session_bytes)
                                    (Ok (Some status_message)))
                          stale_state))))
    = [("downtime", 500000)].
Proof.
  split_and!; [reflexivity..|].
  apply (shutdown_then_start_reports_downtime example_format example_digest
           (stop_env (Some 100) (Some session_bytes)
                     (Ok (Some status_message)))
           (scenario_env (Some 100) 1500000) stale_state session_bytes 100
           status_message eq_refl eq_refl eq_refl).
Defined.

(** An instance: the snapshot document of an earlier run, with its
    counter [pts] at 1 and a field [note]; after the shutdown the counter is
    that of this run and the field is still there. *)
Lemma snapshot_overwrite_run :
  session_file (stop_env None (Some session_bytes) (Ok None))
  = Some session_bytes
  ∧ ∃ d : doc,
      db (final (on_stop example_digest
                   (stop_env None (Some session_bytes) (Ok None))
                   stale_state))
        !! snapshot_id example_digest
             (stop_env None (Some session_bytes) (Ok None))
      = Some d
      ∧ py_get d "pts" = PInt 10
      ∧ d !! "note" = Some (PStr "kept").
Proof.
  split; [reflexivity|].
  destruct (on_stop_overwrites_snapshot_fields example_digest
              (stop_env None (Some session_bytes) (Ok None))
              stale_state session_bytes eq_refl)
    as (d & Hd & _ & _ & Hpts & _ & _ & Hother).
  exists d. split_and!; [exact Hd|exact Hpts|].
  rewrite (Hother "note"); [reflexivity|].
  rewrite !not_elem_of_cons. split_and!; try discriminate.
  apply not_elem_of_nil.
Defined.

(** An instance: the document under the identifier 7 outlives a start
    and a shutdown. *)
Lemma other_document_run :
  IdInt 7 ≠ marker_id
  ∧ db (final (on_start example_format (scenario_env (Some 100) 1500000)
                 stale_state)) !! IdInt 7
    = db stale_state !! IdInt 7.
Proof.
  assert (IdInt 7 ≠ marker_id) as H by discriminate.
  split; [exact H|].
  exact (proj1 (handlers_leave_other_documents example_format example_digest
                  (scenario_env (Some 100) 1500000) stale_state (IdInt 7)
                  H)).
Defined.

(** An instance: the fetch answers with an empty list. *)
Lemma empty_fetch_run :
  db (with_marker scenario_marker) !! marker_id = Some scenario_marker
  ∧ incomplete scenario_marker = false
  ∧ py_get scenario_marker "time" = PInt 1000000
  ∧ get_messages empty_fetch_env (py_get scenario_marker "status_chat_id")
                 (py_get scenario_marker "status_message_id")
    = Ok (Many [])
  ∧ on_start example_format empty_fetch_env (with_marker scenario_marker)
    = Run (Raise IndexError)
          (cleared empty_fetch_env (with_marker scenario_marker))
          [EvFindOne marker_id; EvDeleteOne marker_id;
           EvLogStat "downtime" 500000;
           EvGetMessages (PInt 100) (PInt 42)].
Proof.
  split_and!; [reflexivity..|].
  apply (failed_fetch_stops_reconciliation example_format empty_fetch_env
           (with_marker scenario_marker) scenario_marker 1000000 IndexError
           eq_refl eq_refl eq_refl (or_intror (conj eq_refl eq_refl))).
Defined.

(** An instance: two shutdowns of one bot. *)
Lemma later_shutdown_run :
  BOT_TOKEN (stop_env (Some 100) (Some session_bytes)
                      (Ok (Some status_message)))
  = BOT_TOKEN later_stop_env
  ∧ session_file later_stop_env = Some [Byte.x01]
  ∧ LOG_CHANNEL later_stop_env = Some 100
  ∧ send_message later_stop_env 100 "Shutdowning system..." None
    = Ok (Some (Message 77 100))
  ∧ db (final (on_stop example_digest later_stop_env
                 (final (on_stop example_digest
                           (stop_env (Some 100) (Some session_bytes)
                                     (Ok (Some status_message)))
                           stale_state))))
    = db (final (on_stop example_digest later_stop_env stale_state)).
Proof.
  split_and!; [reflexivity..|].
  apply (later_shutdown_supersedes example_digest
           (stop_env (Some 100) (Some session_bytes)
                     (Ok (Some status_message)))
           later_stop_env stale_state [Byte.x01] 100 (Message 77 100)
           eq_refl eq_refl eq_refl eq_refl).
Defined.

(** ** The help menus *)

Module MenuFacts.

Import Menu.

Local Open Scope list_scope.
Local Open Scope nat_scope.

(** *** Rows of two *)

Lemma rows_of_two_nil {A} : rows_of_two (@nil A) = [].
Proof. reflexivity. Qed.

Lemma rows_of_two_one {A} (a : A) : rows_of_two [a] = [[a]].
Proof. reflexivity. Qed.

Lemma rows_of_two_cons {A} (a b : A) (l : list A) :
  rows_of_two (a :: b :: l) = [a; b] :: rows_of_two l.
Proof.
  unfold rows_of_two, range2. cbn [length].
  change (Nat.div2 (S (S (S (length l))))) with (S (Nat.div2 (S (length l)))).
  cbn [List.seq]. rewrite <- fmap_S_seq. rewrite !fmap_cons, <- !list_fmap_compose.
  f_equal. apply list_fmap_ext. intros _ k _. cbn [compose].
  unfold slice. replace (2 * S k) with (S (S (2 * k))) by lia. reflexivity.
Qed.

(** Induction two elements at a time. *)
Lemma list_pair_ind {A} (P : list A → Prop) :
  P [] → (∀ a, P [a]) → (∀ a b l, P l → P (a :: b :: l)) → ∀ l, P l.
Proof.
  intros H0 H1 H2.
  assert (∀ l, P l ∧ ∀ a, P (a :: l)) as H; [|intros l; apply H].
  induction l as [|b l [IH1 IH2]]; [by split|].
  split; [apply IH2|]. intros a. by apply H2.
Qed.

(** X8. The comprehension that cuts a list of buttons in rows loses no
    button, repeats none and keeps their order. *)
Theorem rows_of_two_concat {A} (l : list A) : concat (rows_of_two l) = l.
Proof.
  induction l as [|a|a b l IH] using list_pair_ind; [done..|].
  rewrite rows_of_two_cons. cbn [concat app]. by rewrite IH.
Qed.

(** X9. There are as many rows as half the buttons, rounded up; every row
    but the last has two buttons, and the last has two or, for an odd
    number of buttons, one.  No row is empty. *)
Theorem rows_of_two_shape {A} (l : list A) :
  length (rows_of_two l) = Nat.div2 (S (length l))
  ∧ ∀ i row,
      rows_of_two l !! i = Some row →
      length row
      = if (S i =? length (rows_of_two l)) && Nat.odd (length l)
        then 1 else 2.
Proof.
  induction l as [|a|a b l [IHn IH]] using list_pair_ind.
  - split; [done|]. intros i row H. by rewrite rows_of_two_nil in H.
  - split; [done|]. intros [|i] row H; [|done].
    rewrite rows_of_two_one in H. by injection H as <-.
  - rewrite rows_of_two_cons. cbn [length]. split.
    { rewrite IHn. reflexivity. }
    intros [|i] row H.
    + injection H as <-. cbn [length].
      destruct l as [|c l]; [done|].
      rewrite IHn. cbn [length].
      change (Nat.div2 (S (S (length l)))) with (S (Nat.div2 (length l))).
      done.
    + cbn in H. rewrite (IH i row H).
      change (Nat.odd (S (S (length l)))) with (Nat.odd (length l)).
      done.
Qed.

(** *** The order on strings, and the sort *)

Lemma str_leb_refl a : str_leb a a = true.
Proof.
  induction a as [|x a IH]; [done|]. cbn.
  by rewrite N.ltb_irrefl, N.eqb_refl.
Qed.

Lemma str_leb_total a b : str_leb a b = true ∨ str_leb b a = true.
Proof.
  revert b. induction a as [|x a IH]; intros [|y b]; cbn; auto.
  destruct (N.ltb_spec x y), (N.ltb_spec y x), (N.eqb_spec x y),
    (N.eqb_spec y x); auto; lia.
Qed.

Lemma str_leb_trans a b c :
  str_leb a b = true → str_leb b c = true → str_leb a c = true.
Proof.
  revert b c. induction a as [|x a IH]; intros [|y b] [|z c]; cbn; auto;
    try done.
  destruct (N.ltb_spec x y), (N.ltb_spec y z), (N.ltb_spec x z),
    (N.eqb_spec x y), (N.eqb_spec y z), (N.eqb_spec x z);
    try done; try lia; eauto.
Qed.

Lemma str_leb_antisym a b :
  str_leb a b = true → str_leb b a = true → a = b.
Proof.
  revert b. induction a as [|x a IH]; intros [|y b]; cbn; try done.
  destruct (N.ltb_spec x y), (N.ltb_spec y x), (N.eqb_spec x y),
    (N.eqb_spec y x); try done; try lia.
  intros. f_equal; auto.
Qed.

Section Sort.

Context {A : Type} (key : A → pystr).

Local Abbreviation by_key := (by_key key).

Lemma insert_by_perm x l : insert_by key x l ≡ₚ x :: l.
Proof.
  induction l as [|y l IH]; [done|]. cbn.
  destruct (str_leb _ _); [done|]. by rewrite IH, Permutation_swap.
Qed.

Lemma sort_by_perm l : sort_by key l ≡ₚ l.
Proof.
  induction l as [|x l IH]; [done|]. cbn.
  by rewrite insert_by_perm, IH.
Qed.

Lemma insert_by_sorted x l :
  StronglySorted by_key l → StronglySorted by_key (insert_by key x l).
Proof.
  induction 1 as [|y l Hl IH Hy]; cbn.
  - by repeat constructor.
  - destruct (str_leb (key x) (key y)) eqn:E.
    + constructor; [by constructor|]. constructor; [done|].
      eapply Forall_impl; [done|]. intros z Hz.
      by eapply str_leb_trans.
    + constructor; [done|].
      rewrite insert_by_perm. constructor; [|done].
      by destruct (str_leb_total (key x) (key y)) as [H|H];
        [rewrite E in H|].
Qed.

Lemma sort_by_sorted l : StronglySorted by_key (sort_by key l).
Proof.
  induction l as [|x l IH]; [constructor|]. by apply insert_by_sorted.
Qed.

(** The sort is stable: the elements of one key keep their order. *)
Lemma insert_by_filter x l (k : pystr) :
  StronglySorted by_key l →
  filter (λ a, key a = k) (insert_by key x l)
  = filter (λ a, key a = k) (x :: l).
Proof.
  induction 1 as [|y l Hl IH Hy]; [done|]. cbn [insert_by].
  destruct (str_leb (key x) (key y)) eqn:E; [done|].
  rewrite filter_cons, IH, !filter_cons.
  destruct (decide (key y = k)) as [Hyk|]; [|done].
  destruct (decide (key x = k)) as [Hxk|]; [|done].
  rewrite Hxk, Hyk, str_leb_refl in E. done.
Qed.

Lemma sort_by_stable l (k : pystr) :
  filter (λ a, key a = k) (sort_by key l) = filter (λ a, key a = k) l.
Proof.
  induction l as [|x l IH]; [done|]. cbn [sort_by foldr].
  rewrite insert_by_filter by apply sort_by_sorted.
  rewrite !filter_cons. fold (sort_by key l). by rewrite IH.
Qed.

End Sort.

(** *** Words *)

Section Words.

Variable isspace : N → bool.

Lemma split_go_nil cur s :
  split_go isspace cur s = [] ↔ cur = [] ∧ forallb isspace s = true.
Proof.
  revert cur. induction s as [|c s IH]; intros cur; cbn.
  - destruct cur; naive_solver.
  - destruct (isspace c); cbn.
    + destruct cur as [|c' cur]; [apply IH|naive_solver].
    + rewrite IH. naive_solver.
Qed.

Lemma split_nil s : split isspace s = [] ↔ forallb isspace s = true.
Proof. unfold split. rewrite split_go_nil. naive_solver. Qed.

(** A word of [split] is not empty and holds no white space. *)
Lemma split_go_words cur s w :
  Forall (λ c, isspace c = false) cur →
  w ∈ split_go isspace cur s →
  w ≠ [] ∧ Forall (λ c, isspace c = false) w.
Proof.
  revert cur. induction s as [|c s IH]; intros cur Hcur; cbn.
  - destruct cur as [|c' cur]; [by intros ?%elem_of_nil|].
    intros ->%list_elem_of_singleton. split.
    + intros H%(f_equal length). rewrite length_reverse in H. done.
    + by apply Forall_reverse.
  - destruct (isspace c) eqn:E.
    + destruct cur as [|c' cur]; [by apply IH|].
      intros [->|H]%elem_of_cons; [|by apply (IH [])].
      split.
      * intros H%(f_equal length). rewrite length_reverse in H. done.
      * by apply Forall_reverse.
    + apply IH. by constructor.
Qed.

Lemma split_words s w :
  w ∈ split isspace s → w ≠ [] ∧ Forall (λ c, isspace c = false) w.
Proof. by apply split_go_words. Qed.

End Words.

(** *** [help_builder] *)

Section Categories.

Variable isspace : N → bool.

Local Abbreviation category_of := (category_of isspace).
Local Abbreviation categorize := (categorize isspace).

Lemma category_of_raise b x :
  category_of b = Raise x
  ↔ x = IndexError
    ∧ 32%N ∈ btn_text b ∧ forallb isspace (btn_text b) = true.
Proof.
  unfold Menu.category_of. case_bool_decide as Hsp.
  - destruct (split isspace (btn_text b)) as [|w ws] eqn:E.
    + apply split_nil in E. naive_solver.
    + assert (forallb isspace (btn_text b) ≠ true) as Hne.
      { intros H%split_nil. by rewrite H in E. }
      naive_solver.
  - naive_solver.
Qed.

Lemma dict_append_keys k b (d : list (pystr * list button)) :
  (dict_append k b d).*1 = if bool_decide (k ∈ d.*1) then d.*1 else d.*1 ++ [k].
Proof.
  induction d as [|[k' bs] d IH]; [done|]. cbn [dict_append].
  destruct (decide (k = k')) as [->|Hk].
  - cbn. rewrite bool_decide_true by left. done.
  - cbn. rewrite IH. destruct (bool_decide (k ∈ d.*1)) eqn:H1.
    + apply bool_decide_eq_true in H1.
      rewrite bool_decide_true by by right. done.
    + apply bool_decide_eq_false in H1.
      rewrite bool_decide_false; [done|].
      intros [?|?]%elem_of_cons; done.
Qed.

Lemma dict_append_nodup k b (d : list (pystr * list button)) :
  NoDup d.*1 → NoDup (dict_append k b d).*1.
Proof.
  intros H. rewrite dict_append_keys. case_bool_decide as Hk; [done|].
  apply NoDup_app. split_and!; [done| |apply NoDup_singleton].
  intros c Hc ->%list_elem_of_singleton. done.
Qed.

Lemma dict_append_elem k b (d : list (pystr * list button)) c :
  c ∈ (dict_append k b d).*1 ↔ c ∈ d.*1 ∨ c = k.
Proof.
  rewrite dict_append_keys. case_bool_decide as Hk.
  - naive_solver.
  - rewrite elem_of_app, list_elem_of_singleton. done.
Qed.

Lemma categorize_ok bs d d' :
  categorize bs d = Ok d' →
  NoDup d.*1 →
  NoDup d'.*1
  ∧ ∀ c, c ∈ d'.*1 ↔ c ∈ d.*1 ∨ ∃ b, b ∈ bs ∧ category_of b = Ok c.
Proof.
  revert d. induction bs as [|b bs IH]; intros d; cbn.
  - intros [= <-] Hd. split; [done|]. intros c. split; [auto|].
    intros [?|(b & Hb%elem_of_nil & _)]; done.
  - destruct (category_of b) as [cb|x] eqn:E; [|done].
    intros H Hd.
    destruct (IH _ H (dict_append_nodup cb b d Hd)) as [Hnd Hel].
    split; [done|]. intros c. rewrite Hel, dict_append_elem. split.
    + intros [[?| ->]|(b' & Hb' & Hc)]; [by left| |].
      * right. exists b. split; [left|done].
      * right. exists b'. split; [by right|done].
    + intros [?|(b' & [->|Hb']%elem_of_cons & Hc)].
      * by left; left.
      * left; right. congruence.
      * right. by exists b'.
Qed.

Lemma categorize_raise bs d x :
  categorize bs d = Raise x
  ↔ x = IndexError ∧ ∃ b, b ∈ bs ∧ category_of b = Raise IndexError.
Proof.
  revert d. induction bs as [|b bs IH]; intros d; cbn.
  - split; [done|]. intros [_ (b & Hb%elem_of_nil & _)]. done.
  - destruct (category_of b) as [cb|y] eqn:E.
    + rewrite IH. split.
      * intros [-> (b' & Hb' & Hc)]. split; [done|].
        exists b'. split; [by right|done].
      * intros [-> (b' & [->|Hb']%elem_of_cons & Hc)]; [congruence|].
        split; [done|]. by exists b'.
    + pose proof (proj1 (category_of_raise b y) E) as [-> _].
      split.
      * intros [= <-]. split; [done|]. exists b. split; [left|done].
      * by intros [-> _].
Qed.

(** Strictly ascending strings. *)
Lemma sorted_nodup_strict (l : list pystr) :
  StronglySorted (by_key id) l → NoDup l →
  StronglySorted (λ a b, str_leb a b = true ∧ a ≠ b) l.
Proof.
  induction 1 as [|a l Hl IH Ha]; [constructor|].
  intros [Hnin Hnd]%NoDup_cons. constructor; [by apply IH|].
  apply Forall_forall. intros b Hb. split.
  - by apply (proj1 (Forall_forall _ _) Ha).
  - intros ->. done.
Qed.

End Categories.

(** The buttons [help_builder] sorts and groups are those of the helpable
    plugins. *)
Lemma sorted_buttons_elem lower text (plugins : list plugin) chat_id b :
  b ∈ sort_by btn_text
        (plugin_button lower text chat_id
         <$> filter (λ p, helpable p = true) plugins)
  ↔ ∃ p, p ∈ plugins ∧ helpable p = true
         ∧ b = plugin_button lower text chat_id p.
Proof.
  rewrite sort_by_perm, list_elem_of_fmap.
  setoid_rewrite list_elem_of_filter. naive_solver.
Qed.

(** X10. On success the keyboard of [help_builder] is the category buttons, two
    to a row, and then the row of the main-menu and close buttons.  The
    categories are in strictly ascending order, so each is shown once; they
    are exactly the categories of the buttons of the helpable plugins; and
    each is "General" or a non-empty word without white space. *)
Theorem help_builder_keyboard isspace lower text plugins (chat_id : Z)
    (keyboard : list (list button)) :
  help_builder isspace lower text plugins chat_id = Ok keyboard →
  ∃ categories : list pystr,
    keyboard
    = rows_of_two (category_button <$> categories)
      ++ [[main_menu_button; close_button]]
    ∧ StronglySorted (λ a b, str_leb a b = true ∧ a ≠ b) categories
    ∧ (∀ c,
         c ∈ categories
         ↔ ∃ p, p ∈ plugins ∧ helpable p = true
                ∧ category_of isspace (plugin_button lower text chat_id p)
                  = Ok c)
    ∧ Forall (λ c, c = str "General"
                   ∨ (c ≠ [] ∧ Forall (λ ch, isspace ch = false) c))
             categories.
Proof.
  unfold help_builder. cbn zeta.
  destruct (categorize _ _ _) as [d|x] eqn:E; [|done].
  intros [= <-]. exists (sorted d.*1).
  destruct (categorize_ok _ _ _ _ E) as [Hnd Hel]; [constructor|].
  assert (∀ c,
    c ∈ sorted d.*1
    ↔ ∃ p, p ∈ plugins ∧ helpable p = true
           ∧ category_of isspace (plugin_button lower text chat_id p) = Ok c)
    as Hcat.
  { intros c. unfold sorted. rewrite sort_by_perm, Hel. split.
    - intros [?%elem_of_nil|(b & Hb & Hc)]; [done|].
      apply sorted_buttons_elem in Hb as (p & Hp & Hh & ->). eauto.
    - intros (p & Hp & Hh & Hc). right.
      exists (plugin_button lower text chat_id p). split; [|done].
      apply sorted_buttons_elem. eauto. }
  split_and!; [done| |done|].
  - apply sorted_nodup_strict; [apply sort_by_sorted|].
    unfold sorted. by rewrite sort_by_perm.
  - apply Forall_forall. intros c (p & _ & _ & Hc)%Hcat.
    unfold category_of in Hc. case_bool_decide; [|left; congruence].
    destruct (split isspace _) as [|w ws] eqn:Hs; [done|].
    injection Hc as <-. right.
    apply (split_words isspace (btn_text (plugin_button lower text chat_id p))).
    rewrite Hs. left.
Qed.

(** X11. [help_builder] raises exactly when the button text of some helpable
    plugin holds a space and nothing but white space, so that its [split()]
    is empty; the exception is then [IndexError]. *)
Theorem help_builder_raises isspace lower text plugins (chat_id : Z)
    (x : exn) :
  help_builder isspace lower text plugins chat_id = Raise x
  ↔ x = IndexError
    ∧ ∃ p, p ∈ plugins ∧ helpable p = true
           ∧ 32%N ∈ btn_text (plugin_button lower text chat_id p)
           ∧ forallb isspace (btn_text (plugin_button lower text chat_id p))
             = true.
Proof.
  unfold help_builder. cbn zeta.
  destruct (categorize _ _ _) as [d|y] eqn:E.
  - split; [done|]. intros [-> (p & Hp & Hh & Hsp & Hall)].
    assert (categorize isspace
              (sort_by btn_text
                 (plugin_button lower text chat_id
                  <$> filter (λ p, helpable p = true) plugins)) []
            = Raise IndexError) as E'; [|congruence].
    apply categorize_raise. split; [done|].
    exists (plugin_button lower text chat_id p). split.
    + apply sorted_buttons_elem. eauto.
    + by apply category_of_raise.
  - apply categorize_raise in E as [-> (b & Hb & Hc)].
    apply sorted_buttons_elem in Hb as (p & Hp & Hh & ->).
    apply category_of_raise in Hc as (_ & Hsp & Hall).
    split; [intros [= <-]|]; naive_solver.
Qed.

(** *** [get_category_help] *)

(** X12. The keyboard of [get_category_help] is the buttons of the plugins
    that are helpable and whose category text is the category asked for,
    one button a plugin, two to a row, and then the row of the back and
    close buttons.  The buttons are in ascending order of their text, and
    buttons of one text are in the order of their plugins. *)
Theorem get_category_help_rows lower text plugins (category : pystr)
    (chat_id : Z) :
  ∃ buttons : list button,
    get_category_help lower text plugins category chat_id
    = rows_of_two buttons ++ [[back_button; close_button]]
    ∧ buttons
      ≡ₚ plugin_button lower text chat_id
         <$> filter (λ p, in_category lower text category chat_id p = true)
                    plugins
    ∧ StronglySorted (by_key btn_text) buttons
    ∧ ∀ t : pystr,
        filter (λ b, btn_text b = t) buttons
        = filter (λ b, btn_text b = t)
            (plugin_button lower text chat_id
             <$> filter (λ p, in_category lower text category chat_id p
                              = true) plugins).
Proof.
  eexists. split; [reflexivity|]. split_and!.
  - apply sort_by_perm.
  - apply sort_by_sorted.
  - intros t. apply sort_by_stable.
Qed.

(** *** The routes of [on_callback_query] *)

Lemma startswith_elem (t p : pystr) (x : N) :
  startswith t p = true → x ∈ p → x ∈ t.
Proof.
  revert t. induction p as [|y p IH]; intros [|z t]; cbn;
    try done; try (by intros _ ?%elem_of_nil).
  intros [Hyz Hp]%andb_true_iff [->|Hx]%elem_of_cons.
  - apply N.eqb_eq in Hyz as ->. left.
  - right. by apply IH.
Qed.

(** [replace] leaves a string that lacks a character of [old]. *)
Lemma replace_go_absent (old new s : pystr) (x : N) :
  x ∈ old → x ∉ s → replace_go old new 0 s = s.
Proof.
  intros Hx. induction s as [|c s IH]; [done|].
  intros Hs. cbn [replace_go].
  destruct (startswith (c :: s) old) eqn:E.
  - destruct Hs. by eapply startswith_elem.
  - f_equal. apply IH. intros ?. apply Hs. by right.
Qed.

(** [replace] of one character by nothing takes that character out. *)
Lemma startswith_nil (s : pystr) : startswith s [] = true.
Proof. by destruct s. Qed.

Lemma replace_go_single (x : N) (s : pystr) :
  replace_go [x] [] 0 s = filter (λ c, c ≠ x) s.
Proof.
  induction s as [|c s IH]; [done|]. cbn [replace_go].
  change (startswith (c :: s) [x]) with ((x =? c)%N && startswith s []).
  rewrite startswith_nil, andb_true_r. cbn [length Nat.sub app]. rewrite IH, filter_cons.
  destruct (N.eqb_spec x c) as [->|Hc].
  - by rewrite decide_False by (by intros []).
  - by rewrite decide_True by done.
Qed.

Lemma filter_ne_id (x : N) (s : pystr) :
  filter (λ c, c ≠ x) s = s ↔ x ∉ s.
Proof.
  induction s as [|c s IH]; [split; [intros _ ?%elem_of_nil|]; done|].
  rewrite filter_cons, not_elem_of_cons.
  destruct (decide (c = x)) as [->|Hc].
  - rewrite decide_False by (by intros []). split; [|naive_solver].
    intros H. exfalso.
    pose proof (length_filter (λ c, c ≠ x) s) as Hlen.
    apply (f_equal length) in H. cbn in H. lia.
  - rewrite decide_True by done. split.
    + intros [= H]. split; [done|]. by apply IH.
    + intros [_ H]. f_equal. by apply IH.
Qed.

Lemma str_category : str "category(" = [99; 97; 116; 101; 103; 111; 114; 121; 40]%N.
Proof. reflexivity. Qed.

Lemma str_plugin : str "plugin(" = [112; 108; 117; 103; 105; 110; 40]%N.
Proof. reflexivity. Qed.

Lemma str_back : str "back" = [98; 97; 99; 107]%N.
Proof. reflexivity. Qed.

Lemma str_close : str "close" = [99; 108; 111; 115; 101]%N.
Proof. reflexivity. Qed.

(** The category a match of the category route stands for. *)
Lemma category_of_match_button (c : pystr) :
  40%N ∉ c →
  category_of_match (str "category(" ++ c ++ str ")")
  = filter (λ ch, ch ≠ 41%N) c.
Proof.
  intros Hc. unfold category_of_match, replace. rewrite str_category.
  change (str ")") with [41%N].
  cbn [app replace_go startswith length N.eqb Pos.eqb andb Nat.sub].
  rewrite startswith_nil. cbv iota.
  rewrite (replace_go_absent
             [99; 97; 116; 101; 103; 111; 114; 121; 40]%N [] (c ++ [41%N])
             40%N).
  - rewrite replace_go_single, filter_app, filter_cons, filter_nil.
    rewrite decide_False by (by intros []). by rewrite app_nil_r.
  - set_solver.
  - rewrite not_elem_of_app, list_elem_of_singleton. done.
Qed.

Section Routes.

Variable isspace : N → bool.
Variable isword : N → bool.
Variable lower : pystr → pystr.
Variable capitalize : pystr → pystr.
Variable text : Z → pystr → text_args → pystr.
Variable plugins : list plugin.
Variable bot_username : pystr.
Variable bot_name : pystr.
Variable edit_message_text : pystr → list (list button) → bool → result unit.
Variable delete_message : result unit.
Variable answer : pystr → result unit.

Local Abbreviation on_callback_query :=
  (on_callback_query isspace isword lower capitalize text plugins
     bot_username bot_name edit_message_text delete_message answer).

Lemma startswith_category (t : pystr) :
  startswith (str "category(" ++ t) (str "category(") = true.
Proof.
  rewrite str_category.
  cbn [app startswith N.eqb Pos.eqb andb]. apply startswith_nil.
Qed.

Lemma startswith_plugin (t : pystr) :
  startswith (str "plugin(" ++ t) (str "plugin(") = true.
Proof.
  rewrite str_plugin.
  cbn [app startswith N.eqb Pos.eqb andb]. apply startswith_nil.
Qed.

Lemma on_callback_query_category (t : pystr) (chat_id : Z) :
  on_callback_query (str "category(" ++ t) chat_id
  = try_edit edit_message_text
      (str "**" ++ category_of_match (str "category(" ++ t)
       ++ str " Plugins**" ++ [10; 10]%N
       ++ str "Select a plugin to view its help:")
      (get_category_help lower text plugins
         (category_of_match (str "category(" ++ t)) chat_id)
      false.
Proof.
  unfold Menu.on_callback_query.
  rewrite decide_False by (rewrite str_category, str_back; discriminate).
  rewrite decide_False by (rewrite str_category, str_close; discriminate).
  by rewrite startswith_category.
Qed.

Lemma on_callback_query_plugin (t : pystr) (chat_id : Z) :
  on_callback_query (str "plugin(" ++ t) chat_id
  = match word_run_then isword 41 t with
    | None => (Raise (ValueError (str "Unable to find plugin name")), [])
    | Some plugin_name =>
        try_edit edit_message_text
          (get_plugin_help capitalize text bot_username plugin_name chat_id)
          [[back_button; close_button]] true
    end.
Proof.
  unfold Menu.on_callback_query, match_plugin.
  rewrite decide_False by (rewrite str_plugin, str_back; discriminate).
  rewrite decide_False by (rewrite str_plugin, str_close; discriminate).
  replace (startswith (str "plugin(" ++ t) (str "category(")) with false
    by (by rewrite str_plugin, str_category).
  rewrite startswith_plugin. by rewrite str_plugin.
Qed.

(** The longest run of word characters that the closing character
    follows, when that character is not a word character: the run up to the
    first character that is not one, if this is the closing character and
    the run is not empty. *)
Lemma word_run_then_spec (close : N) (w rest : pystr) (ch : N) :
  isword close = false →
  Forall (λ c, isword c = true) w →
  isword ch = false →
  word_run_then isword close (w ++ ch :: rest)
  = if bool_decide (w ≠ [] ∧ ch = close) then Some w else None.
Proof.
  intros Hclose Hw Hch.
  induction Hw as [|c w Hc Hw IH]; cbn [app word_run_then].
  - rewrite Hch. case_bool_decide; naive_solver.
  - rewrite Hc, IH. destruct w as [|c' w]; cbn [app].
    + rewrite (bool_decide_false ([] ≠ [] ∧ _)) by naive_solver.
      destruct (N.eqb_spec ch close) as [->|Hne].
      * by rewrite bool_decide_true.
      * rewrite bool_decide_false by naive_solver. done.
    + destruct (decide (ch = close)) as [->|Hne].
      * by rewrite !bool_decide_true.
      * rewrite !bool_decide_false by naive_solver.
        apply Forall_cons in Hw as [Hc' _].
        destruct (N.eqb_spec c' close) as [->|]; [congruence|done].
Qed.

(** X13. The category route.  The button [help_builder] makes for a category
    carries [help_category(] and the category and a closing bracket; for a
    category without an opening bracket, pressing it shows the plugins of
    the category with its closing brackets taken out, which is the category
    itself exactly when it has none. *)
Theorem category_button_route (c : pystr) (chat_id : Z) :
  40%N ∉ c →
  btn_data (category_button c) = str "help_" ++ str "category(" ++ c ++ str ")"
  ∧ on_callback_query (str "category(" ++ c ++ str ")") chat_id
    = try_edit edit_message_text
        (str "**" ++ filter (λ ch, ch ≠ 41%N) c ++ str " Plugins**"
         ++ [10; 10]%N ++ str "Select a plugin to view its help:")
        (get_category_help lower text plugins
           (filter (λ ch, ch ≠ 41%N) c) chat_id)
        false
  ∧ (filter (λ ch, ch ≠ 41%N) c = c ↔ 41%N ∉ c).
Proof.
  intros Hc. split_and!.
  - reflexivity.
  - by rewrite on_callback_query_category, category_of_match_button.
  - apply filter_ne_id.
Qed.

(** X14. The plugin route.  With a closing bracket that is no word character,
    a match that is [plugin(], a run of word characters and then another
    character shows the help of the plugin named by the run when the run is
    not empty and that character is the closing bracket; otherwise the
    handler raises [ValueError] and calls nothing.  So the button of a
    plugin leads to its help exactly when its lowered name is a non-empty
    run of word characters. *)
Theorem plugin_button_route (w rest : pystr) (ch : N) (chat_id : Z) :
  isword 41 = false →
  Forall (λ c, isword c = true) w →
  isword ch = false →
  on_callback_query (str "plugin(" ++ w ++ ch :: rest) chat_id
  = if bool_decide (w ≠ [] ∧ ch = 41%N)
    then try_edit edit_message_text
           (get_plugin_help capitalize text bot_username w chat_id)
           [[back_button; close_button]] true
    else (Raise (ValueError (str "Unable to find plugin name")), []).
Proof.
  intros H41 Hw Hch.
  rewrite on_callback_query_plugin, (word_run_then_spec 41 w rest ch) by done.
  by case_bool_decide.
Qed.

End Routes.

(** *** The menus on concrete inputs *)

(** An instance: three helpable plugins, two with a button text of two
    words that starts with "Group", one with the one word "Rules". *)
Lemma help_builder_run :
  help_builder ascii_isspace ascii_lower example_text example_plugins 1
  = Ok [[category_button (str "General"); category_button (str "Group")];
        [main_menu_button; close_button]]
  ∧ ∃ categories : list pystr,
      [[category_button (str "General"); category_button (str "Group")];
       [main_menu_button; close_button]]
      = rows_of_two (category_button <$> categories)
        ++ [[main_menu_button; close_button]]
      ∧ StronglySorted (λ a b, str_leb a b = true ∧ a ≠ b) categories.
Proof.
  assert (help_builder ascii_isspace ascii_lower example_text
            example_plugins 1
          = Ok [[category_button (str "General");
                 category_button (str "Group")];
                [main_menu_button; close_button]]) as H by reflexivity.
  split; [exact H|].
  destruct (help_builder_keyboard ascii_isspace ascii_lower example_text
              example_plugins 1 _ H) as (categories & Hkb & Hsorted & _).
  exists categories. exact (conj Hkb Hsorted).
Defined.

(** An instance: the button of the category "Group" and its route. *)
Lemma category_button_run :
  40%N ∉ str "Group"
  ∧ on_callback_query ascii_isspace ascii_isword ascii_lower ascii_capitalize
      example_text example_plugins (str "anjani_bot") (str "Anjani")
      example_edit (Ok tt) (λ _, Ok tt)
      (str "category(" ++ str "Group" ++ str ")") 1
    = try_edit example_edit
        (str "**" ++ str "Group" ++ str " Plugins**" ++ [10; 10]%N
         ++ str "Select a plugin to view its help:")
        (get_category_help ascii_lower example_text example_plugins
           (str "Group") 1)
        false.
Proof.
  assert (40%N ∉ str "Group") as H by compute_done.
  split; [exact H|].
  exact (proj1 (proj2 (category_button_route ascii_isspace ascii_isword
                         ascii_lower ascii_capitalize example_text
                         example_plugins (str "anjani_bot") (str "Anjani")
                         example_edit (Ok tt) (λ _, Ok tt)
                         (str "Group") 1 H))).
Defined.

(** An instance: the button of the plugin "rules" and its route. *)
Lemma plugin_button_run :
  ascii_isword 41 = false
  ∧ Forall (λ c, ascii_isword c = true) (str "rules")
  ∧ on_callback_query ascii_isspace ascii_isword ascii_lower ascii_capitalize
      example_text example_plugins (str "anjani_bot") (str "Anjani")
      example_edit (Ok tt) (λ _, Ok tt)
      (str "plugin(" ++ str "rules" ++ [41%N]) 1
    = try_edit example_edit
        (get_plugin_help ascii_capitalize example_text (str "anjani_bot")
           (str "rules") 1)
        [[back_button; close_button]] true.
Proof.
  assert (Forall (λ c, ascii_isword c = true) (str "rules")) as H
    by (repeat constructor).
  split_and!; [reflexivity|exact H|].
  exact (plugin_button_route ascii_isspace ascii_isword ascii_lower
           ascii_capitalize example_text example_plugins (str "anjani_bot")
           (str "Anjani") example_edit (Ok tt) (λ _, Ok tt)
           (str "rules") [] 41%N 1 eq_refl H eq_refl).
Defined.

(** X15. Outside the close route a [MessageNotModified] never leaves
    [on_callback_query]: the edits are guarded, and nothing else on these
    routes raises it.  Each of these routes makes at most one call. *)
Theorem not_modified_never_escapes isspace isword lower capitalize text
    plugins bot_username bot_name edit_message_text delete_message answer
    (m : pystr) (chat_id : Z) :
  m ≠ str "close" →
  (on_callback_query isspace isword lower capitalize text plugins
     bot_username bot_name edit_message_text delete_message answer
     m chat_id).1 ≠ Raise MessageNotModified
  ∧ length (on_callback_query isspace isword lower capitalize text plugins
              bot_username bot_name edit_message_text delete_message answer
              m chat_id).2 ≤ 1.
Proof.
  intros Hm. unfold on_callback_query.
  assert (∀ t kb np,
    (try_edit edit_message_text t kb np).1 ≠ Raise MessageNotModified
    ∧ length (try_edit edit_message_text t kb np).2 ≤ 1) as Hedit.
  { intros t kb np. unfold try_edit. cbn [fst snd length].
    split; [|lia]. by destruct (edit_message_text t kb np) as [?|[]]. }
  destruct (decide (m = str "back")) as [_|_].
  - destruct (help_builder _ _ _ _ _) as [kb|x] eqn:E; [apply Hedit|].
    apply help_builder_raises in E as [-> _]. cbn. split; [done|lia].
  - rewrite decide_False by done.
    destruct (startswith m (str "category(")); [apply Hedit|].
    destruct (startswith m (str "plugin(")); [|cbn; split; [done|lia]].
    destruct (match_plugin isword m); [apply Hedit|].
    cbn. split; [done|lia].
Qed.

(** An instance: the back route, with an edit that finds the message
    unchanged. *)
Lemma not_modified_run :
  str "back" ≠ str "close"
  ∧ (on_callback_query ascii_isspace ascii_isword ascii_lower
       ascii_capitalize example_text example_plugins (str "anjani_bot")
       (str "Anjani") (λ _ _ _, Raise MessageNotModified) (Ok tt)
       (λ _, Ok tt) (str "back") 1).1 ≠ Raise MessageNotModified.
Proof.
  assert (str "back" ≠ str "close") as H by discriminate.
  split; [exact H|].
  exact (proj1 (not_modified_never_escapes ascii_isspace ascii_isword
                  ascii_lower ascii_capitalize example_text example_plugins
                  (str "anjani_bot") (str "Anjani")
                  (λ _ _ _, Raise MessageNotModified) (Ok tt) (λ _, Ok tt)
                  (str "back") 1 H)).
Defined.

End MenuFacts.
